(** * Tool execution and lifecycle engine (cerberus, [app/drivers/tools])

    A shallow embedding of [AbstractTool] and [AbstractAnalyzeTool]:
    the engine object is a record, the modules it calls into
    ([container], [emitter], [utilities], [abstractions]) act on an explicit
    world that records every call, and Python exceptions are results of a
    small state-and-error monad that keeps the mutations made before the
    exception was raised. *)

From Stdlib Require Import ZArith List Ascii String DecimalString.
From Stdlib.Strings Require Import Byte.
From stdpp Require Import base option gmap strings list.

Local Open Scope string_scope.
Local Open Scope list_scope.
Local Open Scope Z_scope.

(** ** Python strings and bytes *)

(** [str.format] and [+] on strings are concatenation, written [+:+];
    the tab and newline characters of the messages have no literal. *)
Definition tab : string := String (ascii_of_nat 9) "".
Definition newline : string := String (ascii_of_nat 10) "".

(** [str(status)] for a Python [int]: decimal digits with a leading minus
    sign for negative numbers. *)
Definition str_of_int (z : Z) : string := NilZero.string_of_int (Z.to_int z).

(** [needle in hay] on Python strings: substring test. *)
Fixpoint str_prefix (p s : string) : bool :=
  match p with
  | EmptyString => true
  | String a p' =>
      match s with
      | EmptyString => false
      | String b s' => if Ascii.eqb a b then str_prefix p' s' else false
      end
  end.

Fixpoint contains (needle hay : string) : bool :=
  str_prefix needle hay ||
  match hay with
  | EmptyString => false
  | String _ rest => contains needle rest
  end.

(** [s.split(sep)] for a one-character separator. *)
Fixpoint split_on (sep : ascii) (s : string) : list string :=
  match s with
  | EmptyString => [EmptyString]
  | String a rest =>
      if Ascii.eqb a sep then EmptyString :: split_on sep rest
      else match split_on sep rest with
           | h :: t => String a h :: t
           | [] => [String a EmptyString]
           end
  end.

(** [s.lower()] on the code points a [string] of this model can hold
    (Latin-1): A-Z and the accented capitals move down by 32. *)
Definition lower_ascii (a : ascii) : ascii :=
  let n := nat_of_ascii a in
  if ((65 <=? n)%nat && (n <=? 90)%nat)
     || ((192 <=? n)%nat && (n <=? 222)%nat && negb (n =? 215)%nat)
  then ascii_of_nat (n + 32) else a.

Fixpoint lower (s : string) : string :=
  match s with
  | EmptyString => EmptyString
  | String a rest => String (lower_ascii a) (lower rest)
  end.

(** [b.decode("iso-8859-1")]: every byte is the code point of the same
    value, so the decoding is total. *)
Fixpoint decode_iso_8859_1 (b : list byte) : string :=
  match b with
  | [] => EmptyString
  | x :: rest => String (ascii_of_byte x) (decode_iso_8859_1 rest)
  end.

Fixpoint encode_iso_8859_1 (s : string) : list byte :=
  match s with
  | EmptyString => []
  | String a rest => byte_of_ascii a :: encode_iso_8859_1 rest
  end.

(** Truthiness of the Python values the engine branches on. *)
Definition truthy_str (s : string) : bool :=
  match s with EmptyString => false | _ => true end.

Definition truthy_opt_str (o : option string) : bool :=
  match o with None => false | Some s => truthy_str s end.

Definition truthy_bytes (b : list byte) : bool :=
  match b with [] => false | _ => true end.

(** ** Data model *)

Abbreviation env_dict := (gmap string string).
Abbreviation dir_dict := (gmap string string).

(** Modelled from the spec: [app.core.task.stats.ToolStats] is not part of
    the sources; the spec lists its counters (size side: non-compilable,
    plausible, size, enumerations, generated; time side: total validation,
    total build) and its three timestamps, and says a fresh record has every
    counter at zero and every timestamp unset. *)
Record ToolStats := {
  non_compilable : Z;
  plausible : Z;
  size : Z;
  enumerations : Z;
  generated : Z;
  total_validation : Z;
  total_build : Z;
  timestamp_compilation : option string;
  timestamp_validation : option string;
  timestamp_plausible : option string
}.

(** Modelled from the spec: the record [ToolStats()] builds, every counter
    at its zero value and every timestamp unset. *)
Definition ToolStats_new : ToolStats :=
  {| non_compilable := 0; plausible := 0; size := 0; enumerations := 0;
     generated := 0; total_validation := 0; total_build := 0;
     timestamp_compilation := None; timestamp_validation := None;
     timestamp_plausible := None |}.

(** Statistics records are Python objects: the engine holds a reference. *)
Definition loc := nat.

(** The attributes of [AbstractTool], with the class-level defaults below. *)
Record AbstractTool := {
  log_instrument_path : string;
  log_output_path : string;
  image_name : option string;
  invoke_command : string;
  name : string;
  dir_logs : string;
  dir_output : string;
  dir_expr : string;
  dir_base_expr : string;
  cpu_usage : Z;
  dir_inst : string;
  dir_setup : string;
  container_id : option string;
  is_instrument_only : bool;
  _stats : loc
}.

(** The module [app.core.values]: process-wide settings and flags. *)
Record Values := {
  use_container : bool;
  rebuild_all : bool;
  is_purge : bool;
  dir_experiments : string
}.

(** A handle of the container runtime's image store. *)
Record Image := { image_id : string }.

Inductive Level := Debug | Normal | Information | Warning | Success | Highlight.

(** Every call that leaves the engine, in the order it is made. *)
Inductive Event :=
| EvEmit (l : Level) (msg : string)
| EvStopContainer (cid : string)
| EvStartContainer (cid : string)
| EvRemoveContainer (cid : string)
| EvExecCommand (cid command dir : string) (env : env_dict)
| EvCopyFromContainer (cid src dst : string)
| EvImageExists (repo tag : string)
| EvPullImage (repo tag : string)
| EvGetImage (repo tag : string)
| EvExecute (command : string) (env : env_dict) (dir : option string)
| EvWhich (prog : string)
| EvIsDir (path : string)
| EvAppendFile (cid : option string) (content path : string).

(** The file store behind the file abstraction: the content of each path,
    per environment ([None] is the host, [Some cid] a container). *)
Abbreviation Files := (gmap (option string * string) string).

(** The answers of the external collaborators. Each answer may depend on
    everything that happened before (the trace) and on the arguments. A
    command run in a container or on the host may also change files: the
    [_files] fields say how. *)
Record Runtime := {
  on_exec_command :
    list Event -> string -> string -> string -> env_dict ->
    Z * option (list byte * list byte);
  exec_command_files :
    list Event -> string -> string -> string -> env_dict -> Files -> Files;
  on_execute : list Event -> string -> env_dict -> option string -> Z;
  execute_files :
    list Event -> string -> env_dict -> option string -> Files -> Files;
  on_image_exists : list Event -> string -> string -> bool;
  on_pull_image : list Event -> string -> string -> option Image;
  on_get_image : list Event -> string -> string -> Image;
  on_which : list Event -> string -> option string;
  on_isdir : list Event -> string -> bool
}.

Record World := {
  values : Values;
  trace : list Event;
  files : Files;
  heap : list ToolStats
}.

Definition State : Type := AbstractTool * World.

Inductive Exn :=
| KeyError (key : string)
| ValueError (msg : string)
| ErrorExit (msg : string).

Inductive Result (A : Type) :=
| Ok (a : A)
| Raise (e : Exn).
Arguments Ok {A} a.
Arguments Raise {A} e.

(** ** The monad of engine methods: state, and exceptions that keep it *)

Definition M (A : Type) : Type := State -> State * Result A.

#[global] Instance M_ret : MRet M := fun A a s => (s, Ok a).

#[global] Instance M_bind : MBind M := fun A B k m s =>
  match m s with
  | (s', Ok a) => k a s'
  | (s', Raise e) => (s', Raise e)
  end.

Definition raise {A} (e : Exn) : M A := fun s => (s, Raise e).

Definition lift {A} (r : Result A) : M A := fun s => (s, r).

Definition self : M AbstractTool := fun s => (s, Ok (fst s)).
Definition world : M World := fun s => (s, Ok (snd s)).
Definition set_self (f : AbstractTool -> AbstractTool) : M unit :=
  fun s => ((f (fst s), snd s), Ok tt).
Definition set_world (f : World -> World) : M unit :=
  fun s => ((fst s, f (snd s)), Ok tt).

Definition when (b : bool) (m : M unit) : M unit := if b then m else mret tt.

(** Attribute assignments [self.x = v]. *)
Definition set_container_id (v : option string) (t : AbstractTool) :=
  {| log_instrument_path := log_instrument_path t;
     log_output_path := log_output_path t; image_name := image_name t;
     invoke_command := invoke_command t; name := name t;
     dir_logs := dir_logs t; dir_output := dir_output t;
     dir_expr := dir_expr t; dir_base_expr := dir_base_expr t;
     cpu_usage := cpu_usage t; dir_inst := dir_inst t;
     dir_setup := dir_setup t; container_id := v;
     is_instrument_only := is_instrument_only t; _stats := _stats t |}.

Definition set_is_instrument_only (v : bool) (t : AbstractTool) :=
  {| log_instrument_path := log_instrument_path t;
     log_output_path := log_output_path t; image_name := image_name t;
     invoke_command := invoke_command t; name := name t;
     dir_logs := dir_logs t; dir_output := dir_output t;
     dir_expr := dir_expr t; dir_base_expr := dir_base_expr t;
     cpu_usage := cpu_usage t; dir_inst := dir_inst t;
     dir_setup := dir_setup t; container_id := container_id t;
     is_instrument_only := v; _stats := _stats t |}.

Definition set_stats (v : loc) (t : AbstractTool) :=
  {| log_instrument_path := log_instrument_path t;
     log_output_path := log_output_path t; image_name := image_name t;
     invoke_command := invoke_command t; name := name t;
     dir_logs := dir_logs t; dir_output := dir_output t;
     dir_expr := dir_expr t; dir_base_expr := dir_base_expr t;
     cpu_usage := cpu_usage t; dir_inst := dir_inst t;
     dir_setup := dir_setup t; container_id := container_id t;
     is_instrument_only := is_instrument_only t; _stats := v |}.

Definition set_image_name (v : option string) (t : AbstractTool) :=
  {| log_instrument_path := log_instrument_path t;
     log_output_path := log_output_path t; image_name := v;
     invoke_command := invoke_command t; name := name t;
     dir_logs := dir_logs t; dir_output := dir_output t;
     dir_expr := dir_expr t; dir_base_expr := dir_base_expr t;
     cpu_usage := cpu_usage t; dir_inst := dir_inst t;
     dir_setup := dir_setup t; container_id := container_id t;
     is_instrument_only := is_instrument_only t; _stats := _stats t |}.

Definition set_log_output_path (v : string) (t : AbstractTool) :=
  {| log_instrument_path := log_instrument_path t;
     log_output_path := v; image_name := image_name t;
     invoke_command := invoke_command t; name := name t;
     dir_logs := dir_logs t; dir_output := dir_output t;
     dir_expr := dir_expr t; dir_base_expr := dir_base_expr t;
     cpu_usage := cpu_usage t; dir_inst := dir_inst t;
     dir_setup := dir_setup t; container_id := container_id t;
     is_instrument_only := is_instrument_only t; _stats := _stats t |}.

Definition set_dir_expr (v : string) (t : AbstractTool) :=
  {| log_instrument_path := log_instrument_path t;
     log_output_path := log_output_path t; image_name := image_name t;
     invoke_command := invoke_command t; name := name t;
     dir_logs := dir_logs t; dir_output := dir_output t;
     dir_expr := v; dir_base_expr := dir_base_expr t;
     cpu_usage := cpu_usage t; dir_inst := dir_inst t;
     dir_setup := dir_setup t; container_id := container_id t;
     is_instrument_only := is_instrument_only t; _stats := _stats t |}.

Definition set_dir_logs (v : string) (t : AbstractTool) :=
  {| log_instrument_path := log_instrument_path t;
     log_output_path := log_output_path t; image_name := image_name t;
     invoke_command := invoke_command t; name := name t;
     dir_logs := v; dir_output := dir_output t;
     dir_expr := dir_expr t; dir_base_expr := dir_base_expr t;
     cpu_usage := cpu_usage t; dir_inst := dir_inst t;
     dir_setup := dir_setup t; container_id := container_id t;
     is_instrument_only := is_instrument_only t; _stats := _stats t |}.

Definition set_dir_inst (v : string) (t : AbstractTool) :=
  {| log_instrument_path := log_instrument_path t;
     log_output_path := log_output_path t; image_name := image_name t;
     invoke_command := invoke_command t; name := name t;
     dir_logs := dir_logs t; dir_output := dir_output t;
     dir_expr := dir_expr t; dir_base_expr := dir_base_expr t;
     cpu_usage := cpu_usage t; dir_inst := v;
     dir_setup := dir_setup t; container_id := container_id t;
     is_instrument_only := is_instrument_only t; _stats := _stats t |}.

Definition set_dir_setup (v : string) (t : AbstractTool) :=
  {| log_instrument_path := log_instrument_path t;
     log_output_path := log_output_path t; image_name := image_name t;
     invoke_command := invoke_command t; name := name t;
     dir_logs := dir_logs t; dir_output := dir_output t;
     dir_expr := dir_expr t; dir_base_expr := dir_base_expr t;
     cpu_usage := cpu_usage t; dir_inst := dir_inst t;
     dir_setup := v; container_id := container_id t;
     is_instrument_only := is_instrument_only t; _stats := _stats t |}.

Definition set_dir_output (v : string) (t : AbstractTool) :=
  {| log_instrument_path := log_instrument_path t;
     log_output_path := log_output_path t; image_name := image_name t;
     invoke_command := invoke_command t; name := name t;
     dir_logs := dir_logs t; dir_output := v;
     dir_expr := dir_expr t; dir_base_expr := dir_base_expr t;
     cpu_usage := cpu_usage t; dir_inst := dir_inst t;
     dir_setup := dir_setup t; container_id := container_id t;
     is_instrument_only := is_instrument_only t; _stats := _stats t |}.

Definition set_dir_base_expr (v : string) (t : AbstractTool) :=
  {| log_instrument_path := log_instrument_path t;
     log_output_path := log_output_path t; image_name := image_name t;
     invoke_command := invoke_command t; name := name t;
     dir_logs := dir_logs t; dir_output := dir_output t;
     dir_expr := dir_expr t; dir_base_expr := v;
     cpu_usage := cpu_usage t; dir_inst := dir_inst t;
     dir_setup := dir_setup t; container_id := container_id t;
     is_instrument_only := is_instrument_only t; _stats := _stats t |}.

(** World updates. *)
Definition log_event (e : Event) (w : World) : World :=
  {| values := values w; trace := trace w ++ [e];
     files := files w; heap := heap w |}.

Definition set_rebuild_all (b : bool) (w : World) : World :=
  {| values := {| use_container := use_container (values w);
                  rebuild_all := b;
                  is_purge := is_purge (values w);
                  dir_experiments := dir_experiments (values w) |};
     trace := trace w; files := files w; heap := heap w |}.

Definition set_files (fs : Files) (w : World) : World :=
  {| values := values w; trace := trace w; files := fs; heap := heap w |}.

Definition file_content (w : World) (cid : option string) (path : string)
  : string :=
  default EmptyString (files w !! (cid, path)).

Definition write_append (cid : option string) (content path : string)
  (w : World) : World :=
  {| values := values w; trace := trace w;
     files := <[(cid, path) := file_content w cid path +:+ content]> (files w);
     heap := heap w |}.

Definition alloc_stats (r : ToolStats) (w : World) : World :=
  {| values := values w; trace := trace w; files := files w;
     heap := heap w ++ [r] |}.

(** ** The collaborators of the engine

    None of these modules is part of the sources. What they answer is taken
    from the [Runtime]; what they are asked is recorded in the trace. *)

Definition call {A} (e : Event) (answer : list Event -> A) : M A :=
  w ← world;
  set_world (log_event e);;
  mret (answer (trace w)).

Definition call_fx {A} (e : Event) (answer : list Event -> A)
  (effect : list Event -> Files -> Files) : M A :=
  w ← world;
  set_world (fun w' => log_event e (set_files (effect (trace w) (files w')) w'));;
  mret (answer (trace w)).

Module emitter.
Definition debug (msg : string) : M unit :=
  set_world (log_event (EvEmit Debug msg)).
Definition normal (msg : string) : M unit :=
  set_world (log_event (EvEmit Normal msg)).
Definition information (msg : string) : M unit :=
  set_world (log_event (EvEmit Information msg)).
Definition warning (msg : string) : M unit :=
  set_world (log_event (EvEmit Warning msg)).
Definition success (msg : string) : M unit :=
  set_world (log_event (EvEmit Success msg)).
Definition highlight (msg : string) : M unit :=
  set_world (log_event (EvEmit Highlight msg)).
End emitter.

Module container.
Definition stop_container (cid : string) : M unit :=
  set_world (log_event (EvStopContainer cid)).
Definition start_container (cid : string) : M unit :=
  set_world (log_event (EvStartContainer cid)).
Definition remove_container (cid : string) : M unit :=
  set_world (log_event (EvRemoveContainer cid)).
Definition copy_file_from_container (cid src dst : string) : M unit :=
  set_world (log_event (EvCopyFromContainer cid src dst)).
Definition exec_command (rt : Runtime) (cid command dir : string)
  (env : env_dict) : M (Z * option (list byte * list byte)) :=
  call_fx (EvExecCommand cid command dir env)
          (fun tr => on_exec_command rt tr cid command dir env)
          (fun tr => exec_command_files rt tr cid command dir env).
Definition image_exists (rt : Runtime) (repo tag : string) : M bool :=
  call (EvImageExists repo tag) (fun tr => on_image_exists rt tr repo tag).
Definition pull_image (rt : Runtime) (repo tag : string)
  : M (option Image) :=
  call (EvPullImage repo tag) (fun tr => on_pull_image rt tr repo tag).
Definition get_image (rt : Runtime) (repo tag : string) : M Image :=
  call (EvGetImage repo tag) (fun tr => on_get_image rt tr repo tag).
End container.

Module utilities.
(** Modelled from the spec: [utilities.error_exit] is not part of the
    sources; configuration and provisioning errors are fatal and abort
    the run of the tool at once. *)
Definition error_exit {A} (msg : string) : M A := raise (ErrorExit msg).

Definition execute_command (rt : Runtime) (command : string)
  (env : option env_dict) (directory : option string) : M Z :=
  call_fx (EvExecute command (default ∅ env) directory)
          (fun tr => on_execute rt tr command (default ∅ env) directory)
          (fun tr => execute_files rt tr command (default ∅ env) directory).
End utilities.

Module abstractions.
(** Modelled from the spec: [abstractions.append_file] is not part of
    the sources; it appends to the file at [path] in the environment named
    by the nullable container identifier and keeps the earlier content. *)
Definition append_file (cid : option string) (content path : string)
  : M unit :=
  set_world (fun w =>
    log_event (EvAppendFile cid content path)
              (write_append cid content path w)).
End abstractions.

Module shutil.
Definition which (rt : Runtime) (prog : string) : M (option string) :=
  call (EvWhich prog) (fun tr => on_which rt tr prog).
End shutil.

Module os_path.
Definition isdir (rt : Runtime) (path : string) : M bool :=
  call (EvIsDir path) (fun tr => on_isdir rt tr path).
End os_path.

(** [ToolStats()]: a new object, at an address no older object has. *)
Definition ToolStats_alloc : M loc :=
  w ← world;
  set_world (alloc_stats ToolStats_new);;
  mret (length (heap w)).

(** [d[k]] on a dict. *)
Definition getitem {V} (d : gmap string V) (k : string) : M V :=
  match d !! k with
  | Some v => mret v
  | None => raise (KeyError k)
  end.

Definition getitem2 (d : gmap string dir_dict) (k1 k2 : string) : M string :=
  inner ← getitem d k1;
  getitem inner k2.

(** ** [AbstractTool] *)

(** [if self.container_id:] picks the mode: a non-empty identifier is
    container mode, [None] (or an empty identifier) is local mode. *)
Definition container_mode (t : AbstractTool) : option string :=
  match container_id t with
  | Some cid => if truthy_str cid then Some cid else None
  | None => None
  end.

(** The class attributes, shared by every instance until it assigns its
    own; [stats0] is the record built once at class level. *)
Definition class_defaults (stats0 : loc) : AbstractTool :=
  {| log_instrument_path := ""; log_output_path := "";
     image_name := Some ""; invoke_command := ""; name := "";
     dir_logs := ""; dir_output := ""; dir_expr := ""; dir_base_expr := "";
     cpu_usage := 1; dir_inst := ""; dir_setup := "";
     container_id := None; is_instrument_only := false;
     _stats := stats0 |}.

Definition AbstractTool_init (tool_name : string) : M unit :=
  emitter.debug ("using tool: " +:+ tool_name);;
  set_self (set_image_name (Some ("cerberus:" +:+ lower tool_name))).

Definition append_file (content file_path : string) : M unit :=
  t ← self;
  abstractions.append_file (container_id t) content file_path.

Definition update_dir_info (dir_info : gmap string dir_dict) : M unit :=
  t ← self;
  if truthy_opt_str (container_id t) then
    v ← getitem2 dir_info "container" "experiment"; set_self (set_dir_expr v);;
    v ← getitem2 dir_info "container" "logs"; set_self (set_dir_logs v);;
    v ← getitem2 dir_info "container" "instrumentation";
    set_self (set_dir_inst v);;
    v ← getitem2 dir_info "container" "setup"; set_self (set_dir_setup v);;
    v ← getitem2 dir_info "container" "artifacts";
    set_self (set_dir_output v);;
    set_self (set_dir_base_expr "/experiment")
  else
    v ← getitem2 dir_info "local" "experiment"; set_self (set_dir_expr v);;
    v ← getitem2 dir_info "local" "logs"; set_self (set_dir_logs v);;
    v ← getitem2 dir_info "local" "instrumentation";
    set_self (set_dir_inst v);;
    v ← getitem2 dir_info "local" "setup"; set_self (set_dir_setup v);;
    v ← getitem2 dir_info "local" "artifacts"; set_self (set_dir_output v);;
    w ← world;
    set_self (set_dir_base_expr (dir_experiments (values w))).

Definition update_info (cid : option string) (instrument_only : bool)
  (dir_info : gmap string dir_dict) : M unit :=
  set_self (set_container_id cid);;
  set_self (set_is_instrument_only instrument_only);;
  update_dir_info dir_info;;
  fresh ← ToolStats_alloc;
  set_self (set_stats fresh).

(** The default of [log_file_path]. *)
Definition dev_null : string := "/dev/null".

Definition run_command (rt : Runtime) (command_str log_file_path : string)
  (dir_path : option string) (env : env_dict) : M Z :=
  t ← self;
  match container_mode t with
  | Some cid =>
      let dir_path :=
        if truthy_opt_str dir_path then default "" dir_path
        else "/experiment" in
      r ← container.exec_command rt cid command_str dir_path env;
      let exit_code := fst r in
      match snd r with
      | Some (stdout, stderr) =>
          if negb (contains "/dev/null" log_file_path) then
            when (truthy_bytes stdout)
                 (append_file (decode_iso_8859_1 stdout) log_file_path);;
            when (truthy_bytes stderr)
                 (append_file (decode_iso_8859_1 stderr) log_file_path)
          else mret tt
      | None => mret tt
      end;;
      mret exit_code
  | None =>
      let dir_path :=
        if truthy_opt_str dir_path then dir_path else Some (dir_expr t) in
      let command_str := command_str +:+ " >> " +:+ log_file_path +:+ " 2>&1" in
      exit_code ← utilities.execute_command rt command_str (Some env) dir_path;
      mret exit_code
  end.

Definition process_status (status : Z) : M unit :=
  t ← self;
  if negb (status =? 0) then
    emitter.warning
      (tab +:+ tab +:+ tab +:+ "[warning] " +:+ name t
       +:+ " exited with an error code " +:+ str_of_int status);;
    if status =? 137 then
      match container_mode t with
      | Some cid =>
          container.stop_container cid;;
          container.start_container cid
      | None => mret tt
      end
    else mret tt
  else
    emitter.success
      (tab +:+ tab +:+ tab +:+ "[success] " +:+ name t
       +:+ " ended successfully").

(** [repo_name, tag_name = self.image_name.split(":")]: unpacking needs
    exactly two parts. *)
Definition unpack2 (parts : list string) : Result (string * string) :=
  match parts with
  | [a; b] => Ok (a, b)
  | _ => Raise (ValueError "too many values to unpack (expected 2)")
  end.

(** The repository and tag of an image reference: split at the colon when
    there is one, tag [latest] otherwise. *)
Definition repo_tag (image : string) : Result (string * string) :=
  if contains ":" image then unpack2 (split_on ":" image)
  else Ok (image, "latest").

Definition found_locally_msg : string :=
  tab +:+ tab +:+ "(information) docker image found locally".

Definition will_rebuild_msg : string :=
  "(information) docker image is not the same as the one in the repository. Will have to rebuild".

Definition check_tool_exists (rt : Runtime) : M unit :=
  t ← self;
  w ← world;
  if use_container (values w) then
    match image_name t with
    | None =>
        utilities.error_exit (name t +:+ " does not provide a Docker Image")
    | Some image =>
        p ← lift (repo_tag image);
        let repo_name := fst p in
        let tag_name := snd p in
        found ← container.image_exists rt repo_name tag_name;
        if negb found then
          emitter.warning
            "(warning) docker image not found in Docker registry";;
          pulled ← container.pull_image rt repo_name tag_name;
          match pulled with
          | None =>
              utilities.error_exit
                (name t +:+ " does not provide a Docker image in Dockerhub")
          | Some _ => mret tt
          end
        else
          emitter.information found_locally_msg;;
          image ← container.get_image rt repo_name tag_name;
          possibly_new_image ← container.pull_image rt repo_name tag_name;
          match possibly_new_image with
          | Some new_image =>
              if negb (String.eqb (image_id image) (image_id new_image)) then
                emitter.information will_rebuild_msg;;
                set_world (set_rebuild_all true)
              else mret tt
          | None => mret tt
          end
    end
  else
    local_path ← shutil.which rt (lower (name t));
    if negb (truthy_opt_str local_path) then
      utilities.error_exit (name t +:+ " not Found")
    else mret tt.

Definition pre_process (rt : Runtime) : M unit := check_tool_exists rt.

Definition clean_up (rt : Runtime) : M unit :=
  t ← self;
  match container_mode t with
  | Some cid => container.remove_container cid
  | None =>
      is_dir ← os_path.isdir rt (dir_expr t);
      if (is_dir : bool) then
        _ ← utilities.execute_command rt ("rm -rf " +:+ dir_expr t) None None;
        mret tt
      else mret tt
  end.

Definition post_process (rt : Runtime) : M unit :=
  t ← self;
  match container_mode t with
  | Some cid => container.stop_container cid
  | None => mret tt
  end;;
  w ← world;
  if is_purge (values w) then clean_up rt else mret tt.

(** One [cp -rf src/* dst] statement of the local save command. *)
Definition cp_rf (src dst : string) : string :=
  "cp -rf " +:+ src +:+ "/* " +:+ dst.

(** The command string [save_artifacts] builds in local mode. *)
Definition save_command (t : AbstractTool)
  (dir_results dir_artifacts dir_logs_arg : string) : string :=
  let c := cp_rf (dir_output t) dir_results +:+ ";" in
  let c := if negb (String.eqb (dir_logs t) "")
           then c +:+ cp_rf (dir_logs t) dir_results +:+ ";" else c in
  let c := if negb (String.eqb dir_artifacts "")
           then c +:+ cp_rf (dir_output t) dir_artifacts +:+ ";" else c in
  let c := if negb (String.eqb dir_logs_arg "")
           then c +:+ cp_rf (dir_logs t) dir_logs_arg else c in
  c.

Definition save_artifacts (rt : Runtime) (dir_info : gmap string string)
  : M unit :=
  t ← self;
  emitter.normal (tab +:+ tab +:+ tab +:+ " saving artifacts of " +:+ name t);;
  dir_results ← getitem dir_info "results";
  dir_artifacts ← getitem dir_info "artifacts";
  dir_logs_arg ← getitem dir_info "logs";
  match container_mode t with
  | Some cid =>
      container.copy_file_from_container cid (dir_output t) dir_results;;
      container.copy_file_from_container cid (dir_logs t) dir_results;;
      container.copy_file_from_container cid (dir_output t) dir_artifacts;;
      container.copy_file_from_container cid (dir_logs t) dir_logs_arg
  | None =>
      _ ← utilities.execute_command rt
             (save_command t dir_results dir_artifacts dir_logs_arg) None None;
      mret tt
  end.

(** [os.path.join(a, b)] of [posixpath]: an absolute [b] replaces [a]; a
    separator is put between the two unless [a] is empty or ends in one. *)
Fixpoint ends_with_slash (s : string) : bool :=
  match s with
  | EmptyString => false
  | String a EmptyString => Ascii.eqb a "/"
  | String _ rest => ends_with_slash rest
  end.

Definition os_path_join (a b : string) : string :=
  if str_prefix "/" b then b
  else if negb (truthy_str a) || ends_with_slash a then a +:+ b
  else a +:+ "/" +:+ b.

(** [re.compile("(.*-output.log$)").match(file)]. The match starts at the
    first character; [.] is any character but a newline (the one before
    [log] too: it is not escaped), [.*] any run of them, and [$] is the end
    of the string or the place before a newline that ends it. *)
Definition is_newline (a : ascii) : bool := Ascii.eqb a (ascii_of_nat 10).

Fixpoint str_drop (n : nat) (s : string) : string :=
  match n, s with
  | O, _ => s
  | S n', String _ rest => str_drop n' rest
  | S _, EmptyString => EmptyString
  end.

(** What has to follow the run matched by [.*]. *)
Definition output_log_tail (s : string) : bool :=
  str_prefix "-output" s &&
  match str_drop 7 s with
  | String c rest =>
      negb (is_newline c) &&
      (String.eqb rest "log" || String.eqb rest ("log" +:+ newline))
  | EmptyString => false
  end.

Fixpoint output_log_match (s : string) : bool :=
  output_log_tail s ||
  match s with
  | EmptyString => false
  | String a rest => negb (is_newline a) && output_log_match rest
  end.

(** One entry of [os.walk]: a directory, its sub-directories, its files. *)
Abbreviation walk_entry := (string * list string * list string)%type.

(** The inner loop of [get_output_log_path]: the first file of a directory
    that passes both tests sets the path and ends the loop ([break]). *)
Fixpoint scan_files (files : list string) : M unit :=
  match files with
  | [] => mret tt
  | file :: rest =>
      t ← self;
      if output_log_match file && contains (name t) file then
        set_self (set_log_output_path (os_path_join (dir_logs t) file))
      else scan_files rest
  end.

(** The outer loop: [break] does not leave it, every directory is
    scanned. *)
Fixpoint scan_walk (entries : list walk_entry) : M unit :=
  match entries with
  | [] => mret tt
  | (_, _, files) :: rest => scan_files files;; scan_walk rest
  end.

(** [os.walk] is not part of the sources: what it lists under a directory
    is the parameter [os_walk]. *)
Definition get_output_log_path (os_walk : string -> list walk_entry)
  : M string :=
  t ← self;
  (if negb (truthy_str (log_output_path t))
   then scan_walk (os_walk (dir_logs t)) else mret tt);;
  t' ← self;
  mret (log_output_path t').

(** [time.strftime] reads the clock: what it returns for a format is the
    parameter [strftime]. *)
Definition timestamp_fmt : string := "%a %d %b %Y %H:%M:%S %p".

Definition timestamp_log (strftime : string -> string) : M unit :=
  t ← self;
  append_file (strftime timestamp_fmt) (log_output_path t).

Definition timestamp_log_start (strftime : string -> string) : M unit :=
  t ← self;
  append_file (strftime timestamp_fmt +:+ newline) (log_output_path t).

Definition timestamp_log_end (strftime : string -> string) : M unit :=
  t ← self;
  append_file (newline +:+ strftime timestamp_fmt) (log_output_path t).

(** ** [AbstractAnalyzeTool] *)

Module AbstractAnalyzeTool.
(** The constructor does not call the one of [AbstractTool]: the
    instance keeps the class attributes. *)
Definition init (tool_name : string) : M unit :=
  emitter.debug ("using tool: " +:+ tool_name).

(** The name of the output log of a run. *)
Definition output_log_name (conf_id tool bug_id : string) : string :=
  conf_id +:+ "-" +:+ lower tool +:+ "-" +:+ bug_id +:+ "-output.log".

(** [utilities.check_space] and the keys [definitions.KEY_ID] and
    [definitions.KEY_BUG_ID] are not part of the sources: they are
    parameters. The identifiers in the two dicts are strings. *)
Definition run_analysis (rt : Runtime) (check_space : M unit)
  (KEY_ID KEY_BUG_ID : string) (bug_info config_info : gmap string string)
  : M unit :=
  emitter.normal
    (tab +:+ tab +:+ "(analysis-tool) analysing experiment subject");;
  check_space;;
  pre_process rt;;
  t ← self;
  emitter.normal (tab +:+ tab +:+ tab +:+ " running analysis with " +:+ name t);;
  conf_id ← getitem config_info KEY_ID;
  bug_id ← getitem bug_info KEY_BUG_ID;
  set_self (set_log_output_path
              (os_path_join (dir_logs t)
                 (output_log_name conf_id (name t) bug_id)));;
  _ ← run_command rt ("mkdir " +:+ dir_output t) "dev/null" (Some "/") ∅;
  mret tt.
End AbstractAnalyzeTool.

(** ** Worlds and engines used as concrete inputs *)

Definition quiet_runtime : Runtime :=
  {| on_exec_command := fun _ _ _ _ _ => (0, None);
     exec_command_files := fun _ _ _ _ _ fs => fs;
     on_execute := fun _ _ _ _ => 0;
     execute_files := fun _ _ _ _ fs => fs;
     on_image_exists := fun _ _ _ => false;
     on_pull_image := fun _ _ _ => None;
     on_get_image := fun _ _ _ => {| image_id := "" |};
     on_which := fun _ _ => None;
     on_isdir := fun _ _ => false |}.

(** The world right after the class [AbstractTool] is defined: the record
    built at class level is the only statistics object. *)
Definition world0 (container : bool) : World :=
  {| values := {| use_container := container; rebuild_all := false;
                  is_purge := false; dir_experiments := "/cerberus/experiments" |};
     trace := []; files := ∅; heap := [ToolStats_new] |}.

Definition with_name (n : string) (t : AbstractTool) : AbstractTool :=
  {| log_instrument_path := log_instrument_path t;
     log_output_path := log_output_path t; image_name := image_name t;
     invoke_command := invoke_command t; name := n;
     dir_logs := dir_logs t; dir_output := dir_output t;
     dir_expr := dir_expr t; dir_base_expr := dir_base_expr t;
     cpu_usage := cpu_usage t; dir_inst := dir_inst t;
     dir_setup := dir_setup t; container_id := container_id t;
     is_instrument_only := is_instrument_only t; _stats := _stats t |}.

Definition foo_local : AbstractTool := with_name "Foo" (class_defaults 0%nat).
Definition foo_container : AbstractTool :=
  set_container_id (Some "c0ffee") foo_local.

(** The directory descriptor: the key of each mode, and the five keys a
    mode's entry has to hold. *)
Definition mode_key_of (cid : option string) : string :=
  if truthy_opt_str cid then "container" else "local".

Definition mode_key (t : AbstractTool) : string := mode_key_of (container_id t).

Definition five_keys : list string :=
  ["experiment"; "logs"; "instrumentation"; "setup"; "artifacts"].

Definition populated (d : dir_dict) : Prop :=
  forall k, k ∈ five_keys -> is_Some (d !! k).

(** Key [k] is required by the mode of [t] and absent from [di]: either the
    entry of the mode itself, or one of the five keys inside it. *)
Definition missing_key (di : gmap string dir_dict) (t : AbstractTool)
  (k : string) : Prop :=
  (k = mode_key t /\ di !! mode_key t = None) \/
  (exists d, di !! mode_key t = Some d /\ k ∈ five_keys /\ d !! k = None).

(** Attribute [attr] of [t'] is what it was in [t], or the path the
    descriptor gives under [key] for the mode of [t]: never a default. *)
Definition kept_or_given (di : gmap string dir_dict) (t t' : AbstractTool)
  (key : string) (attr : AbstractTool -> string) : Prop :=
  attr t' = attr t \/
  (exists d, di !! mode_key t = Some d /\ d !! key = Some (attr t')).

(** The engine after all six assignments of [update_dir_info]. *)
Definition resolved_dirs (e l i s o b : string) (t : AbstractTool)
  : AbstractTool :=
  set_dir_base_expr b
    (set_dir_output o
       (set_dir_setup s (set_dir_inst i (set_dir_logs l (set_dir_expr e t))))).

Definition demo_dirs (root : string) : dir_dict :=
  <["experiment" := root +:+ "/experiment"]>
  (<["logs" := root +:+ "/logs"]>
  (<["instrumentation" := root +:+ "/instrumentation"]>
  (<["setup" := root +:+ "/setup"]>
  (<["artifacts" := root +:+ "/output"]> ∅)))).

Definition demo_dir_info : gmap string dir_dict :=
  <["container" := demo_dirs ""]> (<["local" := demo_dirs "/host"]> ∅).

Definition local_only_dir_info : gmap string dir_dict :=
  <["local" := demo_dirs "/host"]> ∅.



(** A method preserves a relation between the state it starts in and the
    state it ends in, whether it returns or raises. *)
Definition preserves (R : State -> State -> Prop) {A} (m : M A) : Prop :=
  forall s, R s (fst (m s)).

(** The statistics are left alone: the engine refers to the same object
    and no statistics object is created. *)
Definition same_stats (s s' : State) : Prop :=
  _stats (fst s') = _stats (fst s) /\ heap (snd s') = heap (snd s).

Definition keeps_stats {A} (m : M A) : Prop := preserves same_stats m.

(** The rebuild-required flag does not go back from true. *)
Definition flag_stays (s s' : State) : Prop :=
  rebuild_all (values (snd s)) = true -> rebuild_all (values (snd s')) = true.

(** What the image store answers during a provisioning check that starts
    in world [w] and finds the image locally: the local image, and the
    result of pulling again. *)
Definition local_image (rt : Runtime) (w : World) (repo tag : string) : Image :=
  on_get_image rt
    (trace w ++ [EvImageExists repo tag; EvEmit Information found_locally_msg])
    repo tag.

Definition repulled_image (rt : Runtime) (w : World) (repo tag : string)
  : option Image :=
  on_pull_image rt
    (trace w ++ [EvImageExists repo tag; EvEmit Information found_locally_msg;
                 EvGetImage repo tag])
    repo tag.

(** Provisioning checks of several engines, one after the other, in the
    world the earlier ones leave behind (whether they succeeded or not). *)
Fixpoint checks (rt : Runtime) (ts : list AbstractTool) (w : World) : World :=
  match ts with
  | [] => w
  | t :: rest => checks rt rest (snd (fst (check_tool_exists rt (t, w))))
  end.

(** An image store that has [cerberus:foo] locally with identity "old",
    and a registry that serves identity "new" for it. *)
Definition stale_runtime : Runtime :=
  {| on_exec_command := fun _ _ _ _ _ => (0, None);
     exec_command_files := fun _ _ _ _ _ fs => fs;
     on_execute := fun _ _ _ _ => 0;
     execute_files := fun _ _ _ _ fs => fs;
     on_image_exists := fun _ _ _ => true;
     on_pull_image := fun _ _ _ => Some {| image_id := "new" |};
     on_get_image := fun _ _ _ => {| image_id := "old" |};
     on_which := fun _ _ => None;
     on_isdir := fun _ _ => false |}.

Definition foo_engine : AbstractTool :=
  set_image_name (Some "cerberus:foo") foo_local.

(** The command line [run_command] executes in local mode. *)
Definition redirected (command_str log_file_path : string) : string :=
  command_str +:+ " >> " +:+ log_file_path +:+ " 2>&1".

(** The host shell honours the redirection of the command line built from
    [c] and [l]: whenever it is executed, what the command writes on its
    standard output and error, [out], is added at the end of the file [l]
    on the host, and no other file changes. *)
Definition shell_appends (rt : Runtime) (c l out : string) : Prop :=
  forall tr env dir (fs : Files),
    execute_files rt tr (redirected c l) env dir fs
    = <[(None, l) := default "" (fs !! (None, l)) +:+ out]> fs.

(** A host on which [echo hi], redirected into [/tmp/out.log], appends a
    line to that file and exits with 0. *)
Definition echo_runtime : Runtime :=
  {| on_exec_command := fun _ _ _ _ _ => (0, None);
     exec_command_files := fun _ _ _ _ _ fs => fs;
     on_execute := fun _ _ _ _ => 0;
     execute_files := fun _ line _ _ fs =>
       if String.eqb line "echo hi >> /tmp/out.log 2>&1"
       then <[(None, "/tmp/out.log") :=
                default "" (fs !! (None, "/tmp/out.log")) +:+ "hi" +:+ newline]> fs
       else fs;
     on_image_exists := fun _ _ _ => false;
     on_pull_image := fun _ _ _ => None;
     on_get_image := fun _ _ _ => {| image_id := "" |};
     on_which := fun _ _ => None;
     on_isdir := fun _ _ => false |}.

(** The working directory a command runs in, by mode. *)
Definition container_dir (dir_path : option string) : string :=
  if truthy_opt_str dir_path then default "" dir_path else "/experiment".

Definition local_dir (t : AbstractTool) (dir_path : option string)
  : option string :=
  if truthy_opt_str dir_path then dir_path else Some (dir_expr t).

(** The world right after the container ran the command: the call is in
    the trace and the files are as the command left them. *)
Definition after_exec (rt : Runtime) (cid c dir : string) (env : env_dict)
  (w : World) : World :=
  {| values := values w;
     trace := trace w ++ [EvExecCommand cid c dir env];
     files := exec_command_files rt (trace w) cid c dir env (files w);
     heap := heap w |}.

(** One stream of captured output, appended to the log when not empty. *)
Definition append_stream (cid : option string) (stream : list byte)
  (l : string) (w : World) : World :=
  if truthy_bytes stream
  then log_event (EvAppendFile cid (decode_iso_8859_1 stream) l)
                 (write_append cid (decode_iso_8859_1 stream) l w)
  else w.

Definition is_append (e : Event) : bool :=
  match e with EvAppendFile _ _ _ => true | _ => false end.

(** A container whose command is killed (137) after writing to both
    streams. *)
Definition killed_runtime : Runtime :=
  {| on_exec_command := fun _ _ _ _ _ =>
       (137, Some (encode_iso_8859_1 "partial", encode_iso_8859_1 "Killed"));
     exec_command_files := fun _ _ _ _ _ fs => fs;
     on_execute := fun _ _ _ _ => 0;
     execute_files := fun _ _ _ _ fs => fs;
     on_image_exists := fun _ _ _ => false;
     on_pull_image := fun _ _ _ => None;
     on_get_image := fun _ _ _ => {| image_id := "" |};
     on_which := fun _ _ => None;
     on_isdir := fun _ _ => false |}.

(** The copies of the local save command, one by one: each takes the
    content of a source directory of the engine to one of the three target
    arguments. *)
Inductive Target := ToResults | ToArtifacts | ToLogs.

Record Copy := { cp_src : string; cp_target : Target }.

Definition target_eqb (a b : Target) : bool :=
  match a, b with
  | ToResults, ToResults | ToArtifacts, ToArtifacts | ToLogs, ToLogs => true
  | _, _ => false
  end.

Definition local_copies (t : AbstractTool) (dir_artifacts dir_logs_arg : string)
  : list Copy :=
  [{| cp_src := dir_output t; cp_target := ToResults |}] ++
  (if negb (String.eqb (dir_logs t) "")
   then [{| cp_src := dir_logs t; cp_target := ToResults |}] else []) ++
  (if negb (String.eqb dir_artifacts "")
   then [{| cp_src := dir_output t; cp_target := ToArtifacts |}] else []) ++
  (if negb (String.eqb dir_logs_arg "")
   then [{| cp_src := dir_logs t; cp_target := ToLogs |}] else []).

Definition target_dir (dir_results dir_artifacts dir_logs_arg : string)
  (tg : Target) : string :=
  match tg with
  | ToResults => dir_results
  | ToArtifacts => dir_artifacts
  | ToLogs => dir_logs_arg
  end.

(** The statement of one copy; the copy to the logs target, which comes
    last, is the only one without a semicolon after it. *)
Definition render_copy (dir_results dir_artifacts dir_logs_arg : string)
  (c : Copy) : string :=
  cp_rf (cp_src c)
        (target_dir dir_results dir_artifacts dir_logs_arg (cp_target c))
  +:+ match cp_target c with ToLogs => "" | _ => ";" end.

Fixpoint render_copies (dir_results dir_artifacts dir_logs_arg : string)
  (plan : list Copy) : string :=
  match plan with
  | [] => ""
  | c :: rest =>
      render_copy dir_results dir_artifacts dir_logs_arg c
      +:+ render_copies dir_results dir_artifacts dir_logs_arg rest
  end.

(** The sources copied to a target. *)
Definition sources_to (tg : Target) (plan : list Copy) : list string :=
  map cp_src (filter (fun c => target_eqb (cp_target c) tg = true) plan).

(** Every target whose argument is empty gets no copy. *)
Definition skips_empty_targets (dir_results dir_artifacts dir_logs_arg : string)
  (plan : list Copy) : Prop :=
  forall tg, target_dir dir_results dir_artifacts dir_logs_arg tg = "" ->
             sources_to tg plan = [].

Definition saving_text (t : AbstractTool) : string :=
  tab +:+ tab +:+ tab +:+ " saving artifacts of " +:+ name t.

Definition save_dirs (dir_results dir_artifacts dir_logs_arg : string)
  : gmap string string :=
  <["results" := dir_results]>
  (<["artifacts" := dir_artifacts]> (<["logs" := dir_logs_arg]> ∅)).

(** A local engine after its directories were resolved. *)
Definition foo_resolved : AbstractTool :=
  set_dir_logs "/host/logs" (set_dir_output "/host/output" foo_local).

(** The text of the warning of [process_status]. *)
Definition warning_text (t : AbstractTool) (status : Z) : string :=
  tab +:+ tab +:+ tab +:+ "[warning] " +:+ name t
  +:+ " exited with an error code " +:+ str_of_int status.

Definition success_text (t : AbstractTool) : string :=
  tab +:+ tab +:+ tab +:+ "[success] " +:+ name t +:+ " ended successfully".

(** What a method did: the events it added to the trace are those after
    the ones that were there before. *)
Definition new_events (before after : World) : list Event :=
  drop (length (trace before)) (trace after).

Definition is_restart (e : Event) : bool :=
  match e with
  | EvStopContainer _ | EvStartContainer _ => true
  | _ => false
  end.

(** ** Inputs and notions for the rest of the engine *)

(** A container engine after its directories were resolved. *)
Definition foo_container_resolved : AbstractTool :=
  set_dir_logs "/logs" (set_dir_output "/output" foo_container).

(** A purging world. *)
Definition purge_world : World :=
  {| values := {| use_container := true; rebuild_all := false;
                  is_purge := true; dir_experiments := "/cerberus/experiments" |};
     trace := []; files := ∅; heap := [ToolStats_new] |}.

(** An image store without the image, and a registry that serves it. *)
Definition registry_runtime : Runtime :=
  {| on_exec_command := fun _ _ _ _ _ => (0, None);
     exec_command_files := fun _ _ _ _ _ fs => fs;
     on_execute := fun _ _ _ _ => 0;
     execute_files := fun _ _ _ _ fs => fs;
     on_image_exists := fun _ _ _ => false;
     on_pull_image := fun _ _ _ => Some {| image_id := "new" |};
     on_get_image := fun _ _ _ => {| image_id := "" |};
     on_which := fun _ _ => Some "/usr/bin/foo";
     on_isdir := fun _ _ => true |}.

Definition docker_not_found_msg : string :=
  "(warning) docker image not found in Docker registry".

(** What the registry answers when a check that starts in [w] does not
    find the image locally. *)
Definition first_pull (rt : Runtime) (w : World) (repo tag : string)
  : option Image :=
  on_pull_image rt
    (trace w ++ [EvImageExists repo tag; EvEmit Warning docker_not_found_msg])
    repo tag.

(** [sep.join(parts)] for a one-character separator. *)
Fixpoint join_on (sep : ascii) (parts : list string) : string :=
  match parts with
  | [] => EmptyString
  | [p] => p
  | p :: rest => p +:+ String sep (join_on sep rest)
  end.

(** The engine is the same but for its directories, and the world is the
    same: what resolving the directories leaves alone. *)
Definition same_but_dirs (s s' : State) : Prop :=
  container_id (fst s') = container_id (fst s) /\
  name (fst s') = name (fst s) /\
  image_name (fst s') = image_name (fst s) /\
  log_output_path (fst s') = log_output_path (fst s) /\
  log_instrument_path (fst s') = log_instrument_path (fst s) /\
  is_instrument_only (fst s') = is_instrument_only (fst s) /\
  _stats (fst s') = _stats (fst s) /\
  snd s' = snd s.

(** No character of the string is a newline. *)
Fixpoint single_line (s : string) : bool :=
  match s with
  | EmptyString => true
  | String a rest => negb (is_newline a) && single_line rest
  end.

(** The two tests a file name has to pass for a tool named [n]. *)
Definition accepts (n file : string) : bool :=
  output_log_match file && contains n file.

(** The file the two loops settle on: the first accepted file of the last
    directory that has one. *)
Fixpoint walk_choice (n : string) (entries : list walk_entry)
  : option string :=
  match entries with
  | [] => None
  | (_, _, files) :: rest =>
      match walk_choice n rest with
      | Some f => Some f
      | None => List.find (accepts n) files
      end
  end.

(** A logs directory with a stray file and the output logs of two
    runs, the second one in a sub-directory. *)
Definition demo_walk (dir : string) : list walk_entry :=
  [ (dir, ["old"], ["notes.txt"; "c1-foo-7-output.log"; "c2-foo-7-output.log"]);
    (dir +:+ "/old", [], ["c0-foo-3-output.log"]) ].

Definition foo_lower : AbstractTool :=
  set_dir_logs "/logs" (with_name "foo" (class_defaults 0%nat)).

(** The two messages of [run_analysis]. *)
Definition analysing_text : string :=
  tab +:+ tab +:+ "(analysis-tool) analysing experiment subject".

Definition running_text (t : AbstractTool) : string :=
  tab +:+ tab +:+ tab +:+ " running analysis with " +:+ name t.

(** A container runtime for an analysis run: the image is there and up
    to date, and [mkdir] complains on its standard error. *)
Definition mkdir_runtime : Runtime :=
  {| on_exec_command := fun _ _ _ _ _ =>
       (1, Some ([], encode_iso_8859_1 "mkdir: File exists"));
     exec_command_files := fun _ _ _ _ _ fs => fs;
     on_execute := fun _ _ _ _ => 0;
     execute_files := fun _ _ _ _ fs => fs;
     on_image_exists := fun _ _ _ => true;
     on_pull_image := fun _ _ _ => None;
     on_get_image := fun _ _ _ => {| image_id := "old" |};
     on_which := fun _ _ => None;
     on_isdir := fun _ _ => false |}.

Definition foo_analysis : AbstractTool :=
  set_image_name (Some "cerberus:foo") foo_container_resolved.

(** A clock that always shows the same time. *)
Definition noon (fmt : string) : string := "Mon 01 Jan 2024 12:00:00 PM".

(** The transcript of one command: a time stamp, the command, a time
    stamp. *)
Definition stamped_run (rt : Runtime) (clock1 clock2 : string -> string)
  (c l : string) (dp : option string) (env : env_dict) : M unit :=
  timestamp_log_start clock1;;
  run_command rt c l dp env;;
  timestamp_log_end clock2.

(** ** Basic facts *)

Lemma str_app_assoc (a b c : string) : (a +:+ b) +:+ c = a +:+ b +:+ c.
Proof.
  induction a as [|x a IH]; [reflexivity|].
  change (String x ((a +:+ b) +:+ c) = String x (a +:+ b +:+ c)).
  now rewrite IH.
Qed.

Lemma str_app_nil_r (a : string) : a +:+ "" = a.
Proof.
  induction a as [|x a IH]; [reflexivity|].
  change (String x (a +:+ "") = String x a). now rewrite IH.
Qed.

Lemma new_events_app (w w' : World) (evs : list Event) :
  trace w' = trace w ++ evs -> new_events w w' = evs.
Proof.
  intros H. unfold new_events. rewrite H. apply drop_app_length.
Qed.

Lemma container_mode_some (t : AbstractTool) (cid : string) :
  container_id t = Some cid -> cid <> "" -> container_mode t = Some cid.
Proof.
  intros H Hne. unfold container_mode. rewrite H.
  destruct cid; [congruence | reflexivity].
Qed.

Lemma container_mode_none (t : AbstractTool) :
  container_id t = None -> container_mode t = None.
Proof. intros H. unfold container_mode. now rewrite H. Qed.

Lemma container_mode_truthy (t : AbstractTool) :
  truthy_opt_str (container_id t) = true <->
  exists cid, container_mode t = Some cid.
Proof.
  unfold container_mode, truthy_opt_str.
  destruct (container_id t) as [c|]; [destruct c; simpl|];
    split; intros H; try discriminate; try (destruct H; discriminate); eauto.
Qed.

(** ** [process_status] *)

Lemma process_status_run (t : AbstractTool) (w : World) (status : Z) :
  process_status status (t, w) =
  ((t, {| values := values w;
          trace := trace w ++
            (if status =? 0 then [EvEmit Success (success_text t)]
             else EvEmit Warning (warning_text t status) ::
                  (if status =? 137 then
                     match container_mode t with
                     | Some cid => [EvStopContainer cid; EvStartContainer cid]
                     | None => []
                     end
                   else []));
          files := files w; heap := heap w |}), Ok tt).
Proof.
  unfold process_status, mbind, M_bind, self, emitter.warning,
    emitter.success, container.stop_container, container.start_container,
    set_world, log_event, warning_text, success_text; simpl.
  destruct (status =? 0); simpl; [reflexivity|].
  destruct (status =? 137); simpl.
  - destruct (container_mode t); simpl; rewrite <- ?app_assoc; reflexivity.
  - reflexivity.
Qed.

Lemma warning_text_code (t : AbstractTool) (status : Z) :
  exists prefix, warning_text t status = prefix +:+ str_of_int status.
Proof.
  exists (tab +:+ tab +:+ tab +:+ "[warning] " +:+ name t
          +:+ " exited with an error code ").
  unfold warning_text. now rewrite !str_app_assoc.
Qed.

(** C1. The process supervisor, for every exit status: the call returns
    normally and leaves the engine, the settings, the files and the
    statistics as they were; what it adds to the trace is
    - for status 0, the success report only;
    - for status 137 with a container identifier [cid] set, the warning
      (whose text ends in the code, "137"), then one stop of [cid], then one
      start of [cid], and nothing else;
    - for every other non-zero status, in any mode, the warning only (its
      text ends in the code);
    - for status 137 with no container identifier (local mode), the warning
      only: no stop and no start. *)
Theorem process_status_supervises (t : AbstractTool) (w : World) (status : Z) :
  exists w',
    process_status status (t, w) = ((t, w'), Ok tt) /\
    values w' = values w /\ files w' = files w /\ heap w' = heap w /\
    (status = 0 -> trace w' = trace w ++ [EvEmit Success (success_text t)]) /\
    (forall cid, status = 137 -> container_id t = Some cid -> cid <> "" ->
       trace w' = trace w ++ [EvEmit Warning (warning_text t 137);
                              EvStopContainer cid; EvStartContainer cid] /\
       exists prefix, warning_text t 137 = prefix +:+ "137") /\
    (status <> 0 -> status <> 137 ->
       trace w' = trace w ++ [EvEmit Warning (warning_text t status)] /\
       exists prefix, warning_text t status = prefix +:+ str_of_int status) /\
    (status = 137 -> container_id t = None ->
       trace w' = trace w ++ [EvEmit Warning (warning_text t 137)]).
Proof.
  eexists. split; [apply process_status_run|]. simpl.
  repeat split; trivial.
  - intros ->. reflexivity.
  - subst status. simpl. now rewrite (container_mode_some t cid).
  - apply (warning_text_code t 137).
  - destruct (Z.eqb_spec status 0); [contradiction|].
    destruct (Z.eqb_spec status 137); [contradiction|]. reflexivity.
  - apply warning_text_code.
  - intros -> Hc. simpl. now rewrite (container_mode_none t Hc).
Qed.

Lemma process_status_supervises_witness :
  exists w',
    process_status 137 (foo_container, world0 true)
      = ((foo_container, w'), Ok tt) /\
    trace w' = [EvEmit Warning (warning_text foo_container 137);
                EvStopContainer "c0ffee"; EvStartContainer "c0ffee"].
Proof.
  destruct (process_status_supervises foo_container (world0 true) 137)
    as (w' & Hrun & _ & _ & _ & _ & H137 & _).
  exists w'. split; [exact Hrun|].
  destruct (H137 "c0ffee") as [Htr _];
    [reflexivity | reflexivity | discriminate | exact Htr].
Defined.

(** An empty identifier is not a container: the engine is in local mode. *)
Lemma process_status_empty_identifier (t : AbstractTool) (w : World) :
  container_id t = Some "" ->
  trace (snd (fst (process_status 137 (t, w))))
  = trace w ++ [EvEmit Warning (warning_text t 137)].
Proof.
  intros H. rewrite process_status_run. simpl.
  unfold container_mode. now rewrite H.
Qed.

(** Exit code 1 restarts nothing, in either mode. *)
Lemma process_status_exit_1 (t : AbstractTool) (w : World) :
  filter (fun e => is_restart e = true)
         (new_events w (snd (fst (process_status 1 (t, w))))) = [].
Proof.
  rewrite process_status_run. simpl.
  erewrite new_events_app; [|reflexivity]. reflexivity.
Qed.

(** ** [update_dir_info] *)

Lemma update_dir_info_container (di : gmap string dir_dict) (t : AbstractTool)
  (w : World) (d : dir_dict) (e l i s o : string) :
  truthy_opt_str (container_id t) = true ->
  di !! "container" = Some d ->
  d !! "experiment" = Some e -> d !! "logs" = Some l ->
  d !! "instrumentation" = Some i -> d !! "setup" = Some s ->
  d !! "artifacts" = Some o ->
  update_dir_info di (t, w) = ((resolved_dirs e l i s o "/experiment" t, w), Ok tt).
Proof.
  intros Hm Hd He Hl Hi Hs Ho.
  unfold update_dir_info, mbind, M_bind, self, getitem2, getitem, set_self,
    mbind, M_bind. simpl.
  rewrite Hm, Hd. simpl. rewrite He. simpl. rewrite Hl. simpl.
  rewrite Hi. simpl. rewrite Hs. simpl. rewrite Ho. reflexivity.
Qed.

Lemma update_dir_info_local (di : gmap string dir_dict) (t : AbstractTool)
  (w : World) (d : dir_dict) (e l i s o : string) :
  truthy_opt_str (container_id t) = false ->
  di !! "local" = Some d ->
  d !! "experiment" = Some e -> d !! "logs" = Some l ->
  d !! "instrumentation" = Some i -> d !! "setup" = Some s ->
  d !! "artifacts" = Some o ->
  update_dir_info di (t, w)
  = ((resolved_dirs e l i s o (dir_experiments (values w)) t, w), Ok tt).
Proof.
  intros Hm Hd He Hl Hi Hs Ho.
  unfold update_dir_info, mbind, M_bind, self, world, getitem2, getitem,
    set_self, mbind, M_bind. simpl.
  rewrite Hm, Hd. simpl. rewrite He. simpl. rewrite Hl. simpl.
  rewrite Hi. simpl. rewrite Hs. simpl. rewrite Ho. reflexivity.
Qed.

Ltac five_key :=
  unfold five_keys;
  repeat first [apply list_elem_of_here | apply list_elem_of_further].

Lemma populated_five (d : dir_dict) :
  populated d ->
  exists e l i s o,
    d !! "experiment" = Some e /\ d !! "logs" = Some l /\
    d !! "instrumentation" = Some i /\ d !! "setup" = Some s /\
    d !! "artifacts" = Some o.
Proof.
  intros H.
  destruct (H "experiment") as [e He]; [five_key|].
  destruct (H "logs") as [l Hl]; [five_key|].
  destruct (H "instrumentation") as [i Hi]; [five_key|].
  destruct (H "setup") as [s Hs]; [five_key|].
  destruct (H "artifacts") as [o Ho]; [five_key|].
  exists e, l, i, s, o. auto.
Qed.

Lemma populated_demo_dirs (root : string) : populated (demo_dirs root).
Proof.
  intros k Hk. unfold five_keys in Hk.
  repeat (apply elem_of_cons in Hk as [->|Hk]; [eexists; reflexivity|]).
  now apply elem_of_nil in Hk.
Qed.

(** C2. For a directory descriptor whose "container" and "local" entries
    both hold the five keys, updating the directory info succeeds; with a
    container identifier set the five working directories are the five
    paths of the "container" entry and the base experiment path is
    "/experiment"; with none set they are the five paths of the "local"
    entry and the base path is the experiment directory the harness is
    configured with. *)
Theorem update_dir_info_resolves (di : gmap string dir_dict)
  (t : AbstractTool) (w : World) (c l : dir_dict) :
  di !! "container" = Some c -> populated c ->
  di !! "local" = Some l -> populated l ->
  exists t',
    update_dir_info di (t, w) = ((t', w), Ok tt) /\
    (forall cid, container_id t = Some cid -> cid <> "" ->
       c !! "experiment" = Some (dir_expr t') /\
       c !! "logs" = Some (dir_logs t') /\
       c !! "instrumentation" = Some (dir_inst t') /\
       c !! "setup" = Some (dir_setup t') /\
       c !! "artifacts" = Some (dir_output t') /\
       dir_base_expr t' = "/experiment") /\
    (container_id t = None ->
       l !! "experiment" = Some (dir_expr t') /\
       l !! "logs" = Some (dir_logs t') /\
       l !! "instrumentation" = Some (dir_inst t') /\
       l !! "setup" = Some (dir_setup t') /\
       l !! "artifacts" = Some (dir_output t') /\
       dir_base_expr t' = dir_experiments (values w)).
Proof.
  intros Hc Pc Hl Pl.
  destruct (populated_five c Pc) as (ce & cl & ci & cs & co & C1 & C2 & C3 & C4 & C5).
  destruct (populated_five l Pl) as (le & ll & li & ls & lo & L1 & L2 & L3 & L4 & L5).
  destruct (truthy_opt_str (container_id t)) eqn:Hm.
  - eexists. split.
    + eapply update_dir_info_container; eassumption.
    + split.
      * intros _ _ _. simpl. auto 10.
      * intros Hn. rewrite Hn in Hm. discriminate.
  - eexists. split.
    + eapply update_dir_info_local; eassumption.
    + split.
      * intros cid Hs Hne. rewrite Hs in Hm. destruct cid; [congruence|discriminate].
      * intros _. simpl. auto 10.
Qed.

Lemma update_dir_info_resolves_witness :
  exists t',
    update_dir_info demo_dir_info (foo_container, world0 true)
      = ((t', world0 true), Ok tt) /\
    dir_expr t' = "/experiment" /\ dir_logs t' = "/logs" /\
    dir_output t' = "/output" /\ dir_base_expr t' = "/experiment".
Proof.
  destruct (update_dir_info_resolves demo_dir_info foo_container (world0 true)
              (demo_dirs "") (demo_dirs "/host"))
    as (t' & Hrun & Hcont & _);
    [reflexivity | apply populated_demo_dirs
    | reflexivity | apply populated_demo_dirs |].
  destruct (Hcont "c0ffee") as (He & Hl & _ & _ & Ho & Hb);
    [reflexivity | discriminate |].
  exists t'. split; [exact Hrun|].
  change (Some "/experiment" = Some (dir_expr t')) in He.
  change (Some "/logs" = Some (dir_logs t')) in Hl.
  change (Some "/output" = Some (dir_output t')) in Ho.
  repeat split; congruence.
Defined.

Ltac attr_kept_or_given :=
  first [ left; reflexivity
        | right; eexists; split;
          [first [reflexivity | eassumption] | simpl; eassumption] ].

Ltac key_error_case :=
  do 2 eexists; split; [reflexivity|];
  split;
  [ first [ left; split; [reflexivity | first [reflexivity | assumption]]
          | right; eexists; split;
            [ first [reflexivity | eassumption]
            | split; [five_key | assumption] ] ]
  | repeat split; attr_kept_or_given ].

(** C8. When the descriptor lacks a key the active mode requires (the
    entry of the mode, or one of its five keys), updating the directory
    info fails at the first missing key with the error that names it
    (Python's [KeyError], the configuration error of this path); nothing
    but the engine's directories is touched, the base path is not assigned,
    and every working directory is either still what it was or the path the
    descriptor gives for it: none gets a default. *)
Theorem update_dir_info_missing_key (di : gmap string dir_dict)
  (t : AbstractTool) (w : World) (k : string) :
  missing_key di t k ->
  exists t' k',
    update_dir_info di (t, w) = ((t', w), Raise (KeyError k')) /\
    missing_key di t k' /\
    kept_or_given di t t' "experiment" dir_expr /\
    kept_or_given di t t' "logs" dir_logs /\
    kept_or_given di t t' "instrumentation" dir_inst /\
    kept_or_given di t t' "setup" dir_setup /\
    kept_or_given di t t' "artifacts" dir_output /\
    dir_base_expr t' = dir_base_expr t.
Proof.
  intros Hmiss.
  unfold missing_key, kept_or_given, mode_key, mode_key_of in *.
  unfold update_dir_info, mbind, M_bind, self, world, getitem2, getitem,
    set_self, mbind, M_bind, raise. simpl.
  destruct (truthy_opt_str (container_id t)) eqn:Hm.
  - destruct (di !! "container") as [d|] eqn:Hd; simpl; [|key_error_case].
    destruct (d !! "experiment") as [e|] eqn:He; simpl; [|key_error_case].
    destruct (d !! "logs") as [l|] eqn:Hl; simpl; [|key_error_case].
    destruct (d !! "instrumentation") as [i|] eqn:Hi; simpl; [|key_error_case].
    destruct (d !! "setup") as [s|] eqn:Hs; simpl; [|key_error_case].
    destruct (d !! "artifacts") as [o|] eqn:Ho; simpl; [|key_error_case].
    exfalso. destruct Hmiss as [[_ ?]|(d' & Hd' & Hk & Hnone)]; [congruence|].
    assert (d' = d) by congruence; subst d'. unfold five_keys in Hk.
    repeat (apply elem_of_cons in Hk as [->|Hk]; [congruence|]).
    now apply elem_of_nil in Hk.
  - destruct (di !! "local") as [d|] eqn:Hd; simpl; [|key_error_case].
    destruct (d !! "experiment") as [e|] eqn:He; simpl; [|key_error_case].
    destruct (d !! "logs") as [l|] eqn:Hl; simpl; [|key_error_case].
    destruct (d !! "instrumentation") as [i|] eqn:Hi; simpl; [|key_error_case].
    destruct (d !! "setup") as [s|] eqn:Hs; simpl; [|key_error_case].
    destruct (d !! "artifacts") as [o|] eqn:Ho; simpl; [|key_error_case].
    exfalso. destruct Hmiss as [[_ ?]|(d' & Hd' & Hk & Hnone)]; [congruence|].
    assert (d' = d) by congruence; subst d'. unfold five_keys in Hk.
    repeat (apply elem_of_cons in Hk as [->|Hk]; [congruence|]).
    now apply elem_of_nil in Hk.
Qed.

Lemma update_dir_info_missing_key_witness :
  exists t' k',
    update_dir_info local_only_dir_info (foo_container, world0 true)
      = ((t', world0 true), Raise (KeyError k')) /\
    missing_key local_only_dir_info foo_container k' /\
    kept_or_given local_only_dir_info foo_container t' "experiment" dir_expr /\
    kept_or_given local_only_dir_info foo_container t' "logs" dir_logs /\
    kept_or_given local_only_dir_info foo_container t'
      "instrumentation" dir_inst /\
    kept_or_given local_only_dir_info foo_container t' "setup" dir_setup /\
    kept_or_given local_only_dir_info foo_container t' "artifacts" dir_output /\
    dir_base_expr t' = dir_base_expr foo_container.
Proof.
  apply (update_dir_info_missing_key local_only_dir_info foo_container
           (world0 true) "container").
  left. split; reflexivity.
Defined.

(** The failing lookup is the first one: with no entry for the mode, no
    attribute is assigned at all. *)
Example update_dir_info_no_container_entry :
  update_dir_info local_only_dir_info (foo_container, world0 true)
  = ((foo_container, world0 true), Raise (KeyError "container")).
Proof. reflexivity. Qed.

(** ** Relations that every step of a method preserves *)

Section Preserves.

Variable R : State -> State -> Prop.
Hypothesis R_refl : forall s, R s s.
Hypothesis R_trans : forall a b c, R a b -> R b c -> R a c.

Lemma preserves_ret {A} (a : A) : preserves R (mret a).
Proof. intros s. apply R_refl. Qed.

Lemma preserves_raise {A} (e : Exn) : preserves R (@raise A e).
Proof. intros s. apply R_refl. Qed.

Lemma preserves_lift {A} (r : Result A) : preserves R (lift r).
Proof. intros s. apply R_refl. Qed.

Lemma preserves_self : preserves R self.
Proof. intros s. apply R_refl. Qed.

Lemma preserves_world : preserves R world.
Proof. intros s. apply R_refl. Qed.

Lemma preserves_bind {A B} (m : M A) (k : A -> M B) :
  preserves R m -> (forall a, preserves R (k a)) -> preserves R (m ≫= k).
Proof.
  intros Hm Hk s. unfold mbind, M_bind.
  pose proof (Hm s) as H1. destruct (m s) as [s1 [a|e]]; simpl in *.
  - eapply R_trans; [exact H1 | apply Hk].
  - exact H1.
Qed.

Lemma preserves_set_self (f : AbstractTool -> AbstractTool) :
  (forall t w, R (t, w) (f t, w)) -> preserves R (set_self f).
Proof. intros H [t w]. apply H. Qed.

Lemma preserves_set_world (f : World -> World) :
  (forall t w, R (t, w) (t, f w)) -> preserves R (set_world f).
Proof. intros H [t w]. apply H. Qed.

Lemma preserves_getitem {V} (d : gmap string V) (k : string) :
  preserves R (getitem d k).
Proof.
  unfold getitem. destruct (d !! k); [apply preserves_ret | apply preserves_raise].
Qed.

End Preserves.

Lemma same_stats_refl (s : State) : same_stats s s.
Proof. split; reflexivity. Qed.

Lemma same_stats_trans (a b c : State) :
  same_stats a b -> same_stats b c -> same_stats a c.
Proof. intros [H1 H2] [H3 H4]. split; congruence. Qed.

Lemma flag_stays_refl (s : State) : flag_stays s s.
Proof. intros H. exact H. Qed.

Lemma flag_stays_trans (a b c : State) :
  flag_stays a b -> flag_stays b c -> flag_stays a c.
Proof. unfold flag_stays. auto. Qed.

Ltac preserves_step refl trans :=
  first
    [ apply (preserves_bind _ trans); [|intros]
    | apply (preserves_ret _ refl)
    | apply (preserves_raise _ refl)
    | apply (preserves_lift _ refl)
    | apply (preserves_self _ refl)
    | apply (preserves_world _ refl)
    | apply (preserves_getitem _ refl)
    | apply preserves_set_self; intros;
      solve [cbv [same_stats flag_stays]; simpl; auto]
    | apply preserves_set_world; intros;
      solve [cbv [same_stats flag_stays]; simpl; auto]
    | match goal with
      | |- preserves _ (if ?b then _ else _) => destruct b
      | |- preserves _ (match ?x with _ => _ end) => destruct x
      | |- preserves _ (when ?b _) => destruct b; simpl
      end ].

Ltac preserves_all refl trans :=
  unfold keeps_stats;
  unfold emitter.debug, emitter.normal, emitter.information, emitter.warning,
    emitter.success, emitter.highlight, container.stop_container,
    container.start_container, container.remove_container,
    container.copy_file_from_container, container.exec_command,
    container.image_exists, container.pull_image, container.get_image,
    utilities.error_exit, utilities.execute_command,
    abstractions.append_file, shutil.which, os_path.isdir, getitem2,
    append_file, call, call_fx;
  repeat preserves_step refl trans.

Ltac keeps := preserves_all same_stats_refl same_stats_trans.





Lemma keeps_clean_up (rt : Runtime) : keeps_stats (clean_up rt).
Proof. unfold clean_up. keeps. Qed.



(** ** [update_info] *)



Lemma update_info_raise (cid : option string) (io : bool)
  (di : gmap string dir_dict) (t : AbstractTool) (w : World)
  (s1 : State) (e : Exn) :
  update_dir_info di (set_is_instrument_only io (set_container_id cid t), w)
    = (s1, Raise e) ->
  update_info cid io di (t, w) = (s1, Raise e).
Proof.
  intros H. unfold update_info, mbind, M_bind, set_self. simpl.
  rewrite H. reflexivity.
Qed.





(** ** [check_tool_exists] *)

Lemma check_tool_exists_found_locally (rt : Runtime) (t : AbstractTool)
  (w : World) (img repo tag : string) :
  use_container (values w) = true ->
  image_name t = Some img ->
  repo_tag img = Ok (repo, tag) ->
  on_image_exists rt (trace w) repo tag = true ->
  let stale :=
    match repulled_image rt w repo tag with
    | Some new =>
        negb (String.eqb (image_id (local_image rt w repo tag)) (image_id new))
    | None => false
    end in
  check_tool_exists rt (t, w) =
  ((t, {| values := if stale then values (set_rebuild_all true w) else values w;
          trace := trace w ++
            [EvImageExists repo tag; EvEmit Information found_locally_msg;
             EvGetImage repo tag; EvPullImage repo tag] ++
            (if stale then [EvEmit Information will_rebuild_msg] else []);
          files := files w; heap := heap w |}), Ok tt).
Proof.
  intros Hc Hi Hp He. unfold repulled_image, local_image.
  unfold check_tool_exists, mbind, M_bind, self, world, lift,
    container.image_exists, container.get_image, container.pull_image,
    emitter.information, call, set_world, mbind, M_bind, mret, M_ret.
  simpl. rewrite Hi, Hc. simpl. rewrite Hp. simpl. rewrite He. simpl.
  unfold log_event. simpl. rewrite <- !app_assoc. simpl.
  destruct (on_pull_image rt _ repo tag) as [new|]; simpl; [|reflexivity].
  destruct (String.eqb _ (image_id new)); simpl; [reflexivity|].
  unfold set_rebuild_all. simpl. rewrite <- ?app_assoc, ?Hc. reflexivity.
Qed.

Lemma check_tool_exists_flag_stays (rt : Runtime) :
  preserves flag_stays (check_tool_exists rt).
Proof.
  unfold check_tool_exists. preserves_all flag_stays_refl flag_stays_trans.
Qed.

Lemma checks_flag_stays (rt : Runtime) (ts : list AbstractTool) (w : World) :
  rebuild_all (values w) = true -> rebuild_all (values (checks rt ts w)) = true.
Proof.
  revert w. induction ts as [|t rest IH]; intros w H; simpl; [exact H|].
  apply IH. exact (check_tool_exists_flag_stays rt (t, w) H).
Qed.

(** C3. A provisioning check in container mode that finds the image
    locally pulls it again. When the pull succeeds and the identity of the
    pulled image differs from the local one, the check returns normally and
    the rebuild-required flag is true afterwards; when the pull fails, the
    check returns normally as well and the flag is what it was. No check
    takes the flag back from true, whatever the engine, the world and the
    answers of the image store are: once true it is true after the check,
    and after any number of further checks. *)
Theorem check_tool_exists_rebuild_flag (rt : Runtime) (t : AbstractTool)
  (w : World) (img repo tag : string) :
  (use_container (values w) = true ->
   image_name t = Some img ->
   repo_tag img = Ok (repo, tag) ->
   on_image_exists rt (trace w) repo tag = true ->
   (forall new,
      repulled_image rt w repo tag = Some new ->
      image_id new <> image_id (local_image rt w repo tag) ->
      exists w', check_tool_exists rt (t, w) = ((t, w'), Ok tt) /\
                 rebuild_all (values w') = true) /\
   (repulled_image rt w repo tag = None ->
      exists w', check_tool_exists rt (t, w) = ((t, w'), Ok tt) /\
                 rebuild_all (values w') = rebuild_all (values w))) /\
  (rebuild_all (values w) = true ->
   rebuild_all (values (snd (fst (check_tool_exists rt (t, w))))) = true) /\
  (forall ts, rebuild_all (values w) = true ->
              rebuild_all (values (checks rt (t :: ts) w)) = true).
Proof.
  split; [|split].
  - intros Hc Hi Hp He.
    pose proof (check_tool_exists_found_locally rt t w img repo tag Hc Hi Hp He)
      as Hrun. simpl in Hrun.
    split.
    + intros new Hnew Hdiff. rewrite Hnew in Hrun.
      destruct (String.eqb_spec (image_id (local_image rt w repo tag))
                  (image_id new)) as [E|_]; [congruence|].
      simpl in Hrun. eexists. split; [exact Hrun|]. reflexivity.
    + intros Hnone. rewrite Hnone in Hrun.
      eexists. split; [exact Hrun|]. reflexivity.
  - exact (check_tool_exists_flag_stays rt (t, w)).
  - intros ts H. apply (checks_flag_stays rt (t :: ts) w H).
Qed.

Lemma check_tool_exists_rebuild_flag_witness :
  exists w',
    check_tool_exists stale_runtime (foo_engine, world0 true)
      = ((foo_engine, w'), Ok tt) /\
    rebuild_all (values w') = true /\
    rebuild_all (values (checks stale_runtime [foo_engine; foo_local] w')) = true.
Proof.
  destruct (check_tool_exists_rebuild_flag stale_runtime foo_engine
              (world0 true) "cerberus:foo" "cerberus" "foo")
    as [Hlocal _].
  destruct Hlocal as [Hstale _]; try reflexivity.
  destruct (Hstale {| image_id := "new" |}) as (w' & Hrun & Hflag);
    [reflexivity | discriminate |].
  exists w'. split; [exact Hrun|]. split; [exact Hflag|].
  destruct (check_tool_exists_rebuild_flag stale_runtime foo_engine w'
              "" "" "") as (_ & _ & Hmany).
  apply (Hmany [foo_local] Hflag).
Defined.

(** A pull that returns the same identity leaves the flag as it was. *)
Lemma check_tool_exists_same_identity (rt : Runtime) (t : AbstractTool)
  (w : World) (img repo tag : string) (new : Image) :
  use_container (values w) = true ->
  image_name t = Some img ->
  repo_tag img = Ok (repo, tag) ->
  on_image_exists rt (trace w) repo tag = true ->
  repulled_image rt w repo tag = Some new ->
  image_id new = image_id (local_image rt w repo tag) ->
  values (snd (fst (check_tool_exists rt (t, w)))) = values w.
Proof.
  intros Hc Hi Hp He Hnew Hsame.
  rewrite (check_tool_exists_found_locally rt t w img repo tag Hc Hi Hp He).
  simpl. rewrite Hnew, Hsame, String.eqb_refl. reflexivity.
Qed.

(** An engine whose image reference is [None] fails at once in container
    mode: the error says that the tool provides no image, and the image
    store has not been asked anything. *)
Lemma check_tool_exists_no_image (rt : Runtime) (t : AbstractTool) (w : World) :
  use_container (values w) = true ->
  image_name t = None ->
  check_tool_exists rt (t, w)
  = ((t, w), Raise (ErrorExit (name t +:+ " does not provide a Docker Image"))).
Proof.
  intros Hc Hi.
  unfold check_tool_exists, mbind, M_bind, self, world, utilities.error_exit,
    raise. simpl. rewrite Hc, Hi. reflexivity.
Qed.

(** C4, for an analyze-tool engine. An analyze-tool engine built by its
    constructor alone has the empty string, not [None], as image reference.
    In container mode its provisioning check does not stop at the test for a
    missing image: it asks the image store for repository "" with tag
    "latest", and then either succeeds or fails with the error of a missing
    registry image. *)
Theorem analyze_tool_without_image_is_looked_up (rt : Runtime)
  (tool_name : string) :
  let s := fst (AbstractAnalyzeTool.init tool_name
                  (class_defaults 0%nat, world0 true)) in
  let r := check_tool_exists rt s in
  image_name (fst s) = Some "" /\
  (exists rest,
     trace (snd (fst r))
     = [EvEmit Debug ("using tool: " +:+ tool_name); EvImageExists "" "latest"]
       ++ rest) /\
  (snd r = Ok tt \/
   snd r = Raise (ErrorExit " does not provide a Docker image in Dockerhub")).
Proof.
  simpl. split; [reflexivity|].
  unfold check_tool_exists, mbind, M_bind, self, world, lift,
    container.image_exists, container.get_image, container.pull_image,
    emitter.information, emitter.warning, utilities.error_exit, raise,
    call, set_world, mbind, M_bind, mret, M_ret. simpl.
  destruct (on_image_exists rt _ "" "latest"); simpl.
  - destruct (on_pull_image rt _ "" "latest") as [new|]; simpl.
    + destruct (String.eqb _ (image_id new)); simpl;
        (split; [eexists; reflexivity | left; reflexivity]).
    + split; [eexists; reflexivity | left; reflexivity].
  - destruct (on_pull_image rt _ "" "latest") as [new|]; simpl.
    + split; [eexists; reflexivity | left; reflexivity].
    + split; [eexists; reflexivity | right; reflexivity].
Qed.

Example analyze_tool_without_image_quiet :
  check_tool_exists quiet_runtime
    (fst (AbstractAnalyzeTool.init "Foo" (class_defaults 0%nat, world0 true)))
  = ((class_defaults 0%nat,
      {| values := values (world0 true);
         trace := [EvEmit Debug "using tool: Foo"; EvImageExists "" "latest";
                   EvEmit Warning
                     "(warning) docker image not found in Docker registry";
                   EvPullImage "" "latest"];
         files := ∅; heap := [ToolStats_new] |}),
     Raise (ErrorExit " does not provide a Docker image in Dockerhub")).
Proof. reflexivity. Qed.

(** ** Substrings and the Latin-1 decoding *)

Lemma str_prefix_spec (p s : string) :
  str_prefix p s = true <-> exists b, s = p +:+ b.
Proof.
  revert s. induction p as [|x p IH]; intros s; simpl.
  - split; [intros _; now exists s | reflexivity].
  - destruct s as [|y s].
    + split; [discriminate | intros [b Hb]; discriminate Hb].
    + destruct (Ascii.eqb_spec x y) as [->|Hne].
      * rewrite IH. split; intros [b Hb]; exists b.
        -- now rewrite Hb.
        -- now injection Hb.
      * split; [discriminate|]. intros [b Hb]. injection Hb as Hxy _.
        congruence.
Qed.

Lemma contains_spec (needle hay : string) :
  contains needle hay = true <-> exists a b, hay = a +:+ needle +:+ b.
Proof.
  induction hay as [|y hay IH]; simpl.
  - rewrite orb_false_r, str_prefix_spec. split.
    + intros [b Hb]. now exists "", b.
    + intros (a & b & H). destruct a as [|x a]; [now exists b|discriminate H].
  - rewrite orb_true_iff, str_prefix_spec, IH. split.
    + intros [[b Hb]|(a & b & H)].
      * now exists "", b.
      * exists (String y a), b. now rewrite H.
    + intros (a & b & H). destruct a as [|x a].
      * left. now exists b.
      * right. exists a, b. now injection H.
Qed.

Lemma contains_false (needle hay : string) :
  contains needle hay = false <-> ~ exists a b, hay = a +:+ needle +:+ b.
Proof.
  rewrite <- contains_spec. destruct (contains needle hay); split; intros H;
    congruence || (exfalso; now apply H).
Qed.

Lemma decode_encode (b : list byte) :
  encode_iso_8859_1 (decode_iso_8859_1 b) = b.
Proof.
  induction b as [|x b IH]; simpl; [reflexivity|].
  now rewrite byte_of_ascii_of_byte, IH.
Qed.

Lemma encode_decode (s : string) :
  decode_iso_8859_1 (encode_iso_8859_1 s) = s.
Proof.
  induction s as [|a s IH]; simpl; [reflexivity|].
  now rewrite ascii_of_byte_of_ascii, IH.
Qed.

Lemma decode_length (b : list byte) :
  String.length (decode_iso_8859_1 b) = length b.
Proof. induction b as [|x b IH]; simpl; congruence. Qed.

(** ** [run_command] *)

Lemma run_command_local (rt : Runtime) (t : AbstractTool) (w : World)
  (c l : string) (dp : option string) (env : env_dict) :
  container_mode t = None ->
  run_command rt c l dp env (t, w) =
  ((t, {| values := values w;
          trace := trace w ++ [EvExecute (redirected c l) env (local_dir t dp)];
          files := execute_files rt (trace w) (redirected c l) env
                     (local_dir t dp) (files w);
          heap := heap w |}),
   Ok (on_execute rt (trace w) (redirected c l) env (local_dir t dp))).
Proof.
  intros Hm.
  unfold run_command, mbind, M_bind, self, utilities.execute_command, call_fx,
    world, set_world, mbind, M_bind, mret, M_ret. simpl.
  rewrite Hm. reflexivity.
Qed.

Lemma run_command_container (rt : Runtime) (t : AbstractTool) (w : World)
  (cid c l : string) (dp : option string) (env : env_dict) :
  container_mode t = Some cid ->
  let r := on_exec_command rt (trace w) cid c (container_dir dp) env in
  let w1 := after_exec rt cid c (container_dir dp) env w in
  run_command rt c l dp env (t, w) =
  ((t, match snd r with
       | Some (stdout, stderr) =>
           if contains "/dev/null" l then w1
           else append_stream (container_id t) stderr l
                  (append_stream (container_id t) stdout l w1)
       | None => w1
       end), Ok (fst r)).
Proof.
  intros Hm.
  unfold run_command, mbind, M_bind, self, container.exec_command, call_fx,
    world, set_world, mbind, M_bind, mret, M_ret. simpl.
  rewrite Hm. simpl. fold (container_dir dp).
  destruct (on_exec_command rt (trace w) cid c (container_dir dp) env)
    as [code [[stdout stderr]|]]; simpl; [|reflexivity].
  destruct (contains "/dev/null" l); simpl; [reflexivity|].
  unfold append_stream, append_file, abstractions.append_file, mbind, M_bind,
    self, set_world, when.
  destruct (truthy_bytes stdout), (truthy_bytes stderr); reflexivity.
Qed.

Lemma file_content_append_stream (cid : option string) (stream : list byte)
  (l : string) (w : World) :
  file_content (append_stream cid stream l w) cid l
  = file_content w cid l +:+ decode_iso_8859_1 stream.
Proof.
  unfold append_stream. destruct stream as [|x stream]; simpl.
  - now rewrite str_app_nil_r.
  - unfold file_content at 1. simpl. now rewrite lookup_insert_eq.
Qed.

Lemma files_append_stream_other (cid : option string) (stream : list byte)
  (l : string) (w : World) (key : option string * string) :
  key <> (cid, l) ->
  files (append_stream cid stream l w) !! key = files w !! key.
Proof.
  intros Hne. unfold append_stream. destruct (truthy_bytes stream); simpl;
    [|reflexivity].
  now rewrite lookup_insert_ne.
Qed.

Lemma trace_append_stream (cid : option string) (stream : list byte)
  (l : string) (w : World) :
  trace (append_stream cid stream l w)
  = trace w ++ (if truthy_bytes stream
                then [EvAppendFile cid (decode_iso_8859_1 stream) l] else []).
Proof.
  unfold append_stream. destruct (truthy_bytes stream); simpl;
    [reflexivity | now rewrite app_nil_r].
Qed.

Lemma shell_appends_echo : shell_appends echo_runtime "echo hi" "/tmp/out.log"
                             ("hi" +:+ newline).
Proof. intros tr env dir fs. reflexivity. Qed.

(** C5. In local mode (no container identifier) a call to [run_command]
    executes exactly one host command: the given command followed by
    [ >> log 2>&1], which sends standard output and standard error to the
    log file in append mode. It returns the exit code of that command and
    nothing else, runs it in the resolved experiment directory when no
    working directory is given, and writes no file itself. On a host shell
    that honours the redirection, the log is its earlier content followed
    by the output, once; a second call with the same output leaves the
    earlier content followed by two copies. *)
Theorem run_command_local_appends (rt : Runtime) (t : AbstractTool) (w : World)
  (c l : string) (dp : option string) (env : env_dict) :
  container_id t = None ->
  exists w',
    run_command rt c l dp env (t, w)
    = ((t, w'),
       Ok (on_execute rt (trace w) (redirected c l) env (local_dir t dp))) /\
    redirected c l = c +:+ " >> " +:+ l +:+ " 2>&1" /\
    trace w' = trace w ++ [EvExecute (redirected c l) env (local_dir t dp)] /\
    (dp = None -> local_dir t dp = Some (dir_expr t)) /\
    values w' = values w /\ heap w' = heap w /\
    (forall out, shell_appends rt c l out ->
       file_content w' None l = file_content w None l +:+ out /\
       (forall key, key <> (None, l) -> files w' !! key = files w !! key) /\
       exists w'',
         fst (run_command rt c l dp env (t, w')) = (t, w'') /\
         trace w'' = trace w ++ [EvExecute (redirected c l) env (local_dir t dp);
                                 EvExecute (redirected c l) env (local_dir t dp)] /\
         file_content w'' None l = file_content w None l +:+ out +:+ out).
Proof.
  intros Hc. pose proof (container_mode_none t Hc) as Hm.
  eexists. split; [apply (run_command_local rt t w c l dp env Hm)|].
  simpl. repeat split.
  - intros ->. reflexivity.
  - unfold file_content. simpl. rewrite H. now rewrite lookup_insert_eq.
  - intros key Hne. rewrite H. now rewrite lookup_insert_ne.
  - eexists. split; [rewrite (run_command_local rt t _ c l dp env Hm); reflexivity|].
    simpl. split; [now rewrite <- app_assoc|].
    unfold file_content. simpl. rewrite !H, !lookup_insert_eq. simpl.
    now rewrite str_app_assoc.
Qed.

Lemma run_command_local_appends_witness :
  exists w' w'',
    run_command echo_runtime "echo hi" "/tmp/out.log" None ∅
      (foo_local, world0 false) = ((foo_local, w'), Ok 0) /\
    file_content w' None "/tmp/out.log" = "hi" +:+ newline /\
    fst (run_command echo_runtime "echo hi" "/tmp/out.log" None ∅
           (foo_local, w')) = (foo_local, w'') /\
    file_content w'' None "/tmp/out.log"
    = "hi" +:+ newline +:+ "hi" +:+ newline.
Proof.
  destruct (run_command_local_appends echo_runtime foo_local (world0 false)
              "echo hi" "/tmp/out.log" None ∅)
    as (w' & Hrun & _ & _ & _ & _ & _ & Hshell); [reflexivity|].
  destruct (Hshell ("hi" +:+ newline) shell_appends_echo)
    as (H1 & _ & w'' & Hrun2 & _ & H2).
  exists w', w''. repeat split; assumption.
Defined.

(** C6. In container mode a call to [run_command] hands the command to the
    container (in "/experiment" when no working directory is given) and
    returns its exit code and nothing else. With the discard sentinel
    "/dev/null" as log path the call stops there: the captured output is
    dropped, no append is asked of the file abstraction, and the files are
    as the command itself left them. With a log path that is not a discard
    path, the decoded standard output is appended to the log first and the
    decoded standard error second (an empty stream adds nothing), after the
    earlier content, and no other file changes. The decoding is the
    single-byte one: it is defined on every byte sequence, keeps the length
    and loses nothing. *)
Theorem run_command_container_logging (rt : Runtime) (t : AbstractTool)
  (w : World) (cid c l : string) (dp : option string) (env : env_dict) :
  container_id t = Some cid -> cid <> "" ->
  let dir := container_dir dp in
  let w1 := after_exec rt cid c dir env w in
  let r := on_exec_command rt (trace w) cid c dir env in
  (dp = None -> dir = "/experiment") /\
  run_command rt c dev_null dp env (t, w) = ((t, w1), Ok (fst r)) /\
  trace w1 = trace w ++ [EvExecCommand cid c dir env] /\
  files w1 = exec_command_files rt (trace w) cid c dir env (files w) /\
  (contains "/dev/null" l = false ->
   forall stdout stderr, snd r = Some (stdout, stderr) ->
   exists w',
     run_command rt c l dp env (t, w) = ((t, w'), Ok (fst r)) /\
     trace w' = trace w1 ++
       (if truthy_bytes stdout
        then [EvAppendFile (Some cid) (decode_iso_8859_1 stdout) l] else []) ++
       (if truthy_bytes stderr
        then [EvAppendFile (Some cid) (decode_iso_8859_1 stderr) l] else []) /\
     file_content w' (Some cid) l
     = file_content w1 (Some cid) l +:+ decode_iso_8859_1 stdout
       +:+ decode_iso_8859_1 stderr /\
     (forall key, key <> (Some cid, l) -> files w' !! key = files w1 !! key)) /\
  (forall b : list byte,
     encode_iso_8859_1 (decode_iso_8859_1 b) = b /\
     String.length (decode_iso_8859_1 b) = length b).
Proof.
  intros Hc Hne. pose proof (container_mode_some t cid Hc Hne) as Hm.
  cbv zeta. split; [intros ->; reflexivity|].
  split.
  { rewrite (run_command_container rt t w cid c dev_null dp env Hm). cbv zeta.
    destruct (snd _) as [[stdout stderr]|]; reflexivity. }
  split; [reflexivity|]. split; [reflexivity|].
  split; [|intros b; split; [apply decode_encode | apply decode_length]].
  intros Hl stdout stderr Hout.
  rewrite (run_command_container rt t w cid c l dp env Hm). cbv zeta.
  rewrite Hout, Hl, Hc. eexists. split; [reflexivity|].
  split; [|split].
  - now rewrite !trace_append_stream, <- app_assoc.
  - now rewrite !file_content_append_stream, str_app_assoc.
  - intros key Hk. now rewrite !files_append_stream_other.
Qed.

Lemma run_command_container_logging_witness :
  exists w',
    run_command killed_runtime "tool --run" "/logs/out.log" None ∅
      (foo_container, world0 true) = ((foo_container, w'), Ok 137) /\
    file_content w' (Some "c0ffee") "/logs/out.log" = "partialKilled" /\
    trace w' = [EvExecCommand "c0ffee" "tool --run" "/experiment" ∅;
                EvAppendFile (Some "c0ffee") "partial" "/logs/out.log";
                EvAppendFile (Some "c0ffee") "Killed" "/logs/out.log"].
Proof.
  destruct (run_command_container_logging killed_runtime foo_container
              (world0 true) "c0ffee" "tool --run" "/logs/out.log" None ∅)
    as (_ & _ & _ & _ & Hlog & _); [reflexivity | discriminate |].
  destruct (Hlog eq_refl (encode_iso_8859_1 "partial")
              (encode_iso_8859_1 "Killed") eq_refl)
    as (w' & Hrun & Htr & Hfile & _).
  exists w'. repeat split; assumption.
Defined.

(** With the discard sentinel nothing is appended, whatever the command
    wrote. *)
Example run_command_discards_output :
  run_command killed_runtime "tool --run" dev_null None ∅
    (foo_container, world0 true)
  = ((foo_container,
      {| values := values (world0 true);
         trace := [EvExecCommand "c0ffee" "tool --run" "/experiment" ∅];
         files := ∅; heap := [ToolStats_new] |}), Ok 137).
Proof. reflexivity. Qed.

Lemma run_command_container_discard (rt : Runtime) (t : AbstractTool)
  (w : World) (cid c l : string) (dp : option string) (env : env_dict) :
  container_mode t = Some cid ->
  contains "/dev/null" l = true ->
  run_command rt c l dp env (t, w)
  = ((t, after_exec rt cid c (container_dir dp) env w),
     Ok (fst (on_exec_command rt (trace w) cid c (container_dir dp) env))).
Proof.
  intros Hm Hl. rewrite (run_command_container rt t w cid c l dp env Hm).
  cbv zeta. rewrite Hl. destruct (snd _) as [[stdout stderr]|]; reflexivity.
Qed.

(** C10. In container mode the discard test of [run_command] is a
    substring test. A log path with "/dev/null" anywhere inside it, such as
    "/tmp/dev/null-backup.log", is treated exactly as the sentinel: the
    call ends in the same state with the same result, the captured output
    is dropped and no append is made. A call that does append to its log
    path was given a path without that substring, and a path without it
    does receive a non-empty standard output. *)
Theorem run_command_discard_is_substring (rt : Runtime) (t : AbstractTool)
  (w : World) (cid c : string) (dp : option string) (env : env_dict) :
  container_id t = Some cid -> cid <> "" ->
  (forall a b,
     run_command rt c (a +:+ "/dev/null" +:+ b) dp env (t, w)
     = run_command rt c dev_null dp env (t, w) /\
     run_command rt c (a +:+ "/dev/null" +:+ b) dp env (t, w)
     = ((t, after_exec rt cid c (container_dir dp) env w),
        Ok (fst (on_exec_command rt (trace w) cid c (container_dir dp) env)))) /\
  run_command rt c "/tmp/dev/null-backup.log" dp env (t, w)
  = run_command rt c dev_null dp env (t, w) /\
  (forall l,
     filter (fun e => is_append e = true)
       (new_events w (snd (fst (run_command rt c l dp env (t, w))))) <> [] ->
     ~ exists a b, l = a +:+ "/dev/null" +:+ b) /\
  (forall l stdout stderr,
     (~ exists a b, l = a +:+ "/dev/null" +:+ b) ->
     snd (on_exec_command rt (trace w) cid c (container_dir dp) env)
     = Some (stdout, stderr) ->
     stdout <> [] ->
     EvAppendFile (Some cid) (decode_iso_8859_1 stdout) l
     ∈ new_events w (snd (fst (run_command rt c l dp env (t, w))))).
Proof.
  intros Hc Hne. pose proof (container_mode_some t cid Hc Hne) as Hm.
  assert (Hsub : forall l, contains "/dev/null" l = true ->
            run_command rt c l dp env (t, w)
            = run_command rt c dev_null dp env (t, w)).
  { intros l Hl.
    rewrite (run_command_container_discard rt t w cid c l dp env Hm Hl).
    now rewrite (run_command_container_discard rt t w cid c dev_null dp env Hm). }
  split; [|split; [|split]].
  - intros a b.
    assert (Hl : contains "/dev/null" (a +:+ "/dev/null" +:+ b) = true)
      by (apply contains_spec; eauto).
    split; [now apply Hsub|].
    now apply run_command_container_discard.
  - now apply Hsub.
  - intros l Happ Hl. apply contains_spec in Hl. apply Happ.
    rewrite (run_command_container_discard rt t w cid c l dp env Hm Hl).
    simpl. erewrite new_events_app; [|reflexivity]. reflexivity.
  - intros l stdout stderr Hl Hout Hso. apply contains_false in Hl.
    rewrite (run_command_container rt t w cid c l dp env Hm). cbv zeta.
    rewrite Hout, Hl. simpl.
    erewrite new_events_app.
    2:{ rewrite !trace_append_stream. unfold after_exec. simpl.
        rewrite <- !app_assoc. reflexivity. }
    destruct stdout as [|x stdout]; [congruence|]. simpl. rewrite Hc.
    apply list_elem_of_further, list_elem_of_here.
Qed.

Lemma run_command_discard_is_substring_witness :
  run_command killed_runtime "tool --run" "/tmp/dev/null-backup.log" None ∅
    (foo_container, world0 true)
  = ((foo_container,
      {| values := values (world0 true);
         trace := [EvExecCommand "c0ffee" "tool --run" "/experiment" ∅];
         files := ∅; heap := [ToolStats_new] |}), Ok 137).
Proof.
  destruct (run_command_discard_is_substring killed_runtime foo_container
              (world0 true) "c0ffee" "tool --run" None ∅)
    as (Hany & _); [reflexivity | discriminate |].
  destruct (Hany "/tmp" "-backup.log") as [_ Hrun]. exact Hrun.
Defined.

(** ** [save_artifacts] *)

Lemma save_command_renders (t : AbstractTool) (res art logs : string) :
  save_command t res art logs
  = render_copies res art logs (local_copies t art logs).
Proof.
  unfold save_command, local_copies.
  destruct (String.eqb (dir_logs t) ""), (String.eqb art ""),
    (String.eqb logs ""); simpl; unfold render_copy; simpl;
    rewrite ?str_app_assoc, ?str_app_nil_r; reflexivity.
Qed.

Lemma save_artifacts_local (rt : Runtime) (t : AbstractTool) (w : World)
  (di : gmap string string) (res art logs : string) :
  container_mode t = None ->
  di !! "results" = Some res -> di !! "artifacts" = Some art ->
  di !! "logs" = Some logs ->
  save_artifacts rt di (t, w) =
  ((t, {| values := values w;
          trace := trace w ++ [EvEmit Normal (saving_text t);
                               EvExecute (save_command t res art logs) ∅ None];
          files := execute_files rt (trace w ++ [EvEmit Normal (saving_text t)])
                     (save_command t res art logs) ∅ None (files w);
          heap := heap w |}), Ok tt).
Proof.
  intros Hm Hr Ha Hl.
  unfold save_artifacts, mbind, M_bind, self, emitter.normal, getitem,
    utilities.execute_command, call_fx, world, set_world, mbind, M_bind,
    mret, M_ret. simpl.
  rewrite Hr. simpl. rewrite Ha. simpl. rewrite Hl. simpl. rewrite Hm.
  unfold log_event, set_files, saving_text. simpl.
  rewrite <- ?app_assoc. reflexivity.
Qed.

(** C9, as the code has it. In local mode, given the three target
    arguments, [save_artifacts] returns normally after one host command,
    which is the rendering of the planned copies. With an empty logs
    argument no copy goes to the logs target, and with an empty artifacts
    argument none goes to the artifacts target; a non-empty artifacts
    argument gets the output directory only, a non-empty logs argument gets
    the logs directory only. The results target is not guarded by its
    argument: it gets the output directory in every case, and the logs
    directory as well exactly when the engine's own logs directory is not
    empty. *)
Theorem save_artifacts_local_copies (rt : Runtime) (t : AbstractTool)
  (w : World) (di : gmap string string) (res art logs : string) :
  container_id t = None ->
  di !! "results" = Some res -> di !! "artifacts" = Some art ->
  di !! "logs" = Some logs ->
  let plan := local_copies t art logs in
  (exists w',
     save_artifacts rt di (t, w) = ((t, w'), Ok tt) /\
     trace w' = trace w ++
       [EvEmit Normal (saving_text t);
        EvExecute (render_copies res art logs plan) ∅ None]) /\
  (logs = "" -> sources_to ToLogs plan = []) /\
  (art = "" -> sources_to ToArtifacts plan = []) /\
  (logs <> "" -> sources_to ToLogs plan = [dir_logs t]) /\
  (art <> "" -> sources_to ToArtifacts plan = [dir_output t]) /\
  sources_to ToResults plan
  = dir_output t :: (if String.eqb (dir_logs t) "" then [] else [dir_logs t]).
Proof.
  intros Hc Hr Ha Hl. pose proof (container_mode_none t Hc) as Hm.
  cbv zeta. split.
  { eexists. split; [apply (save_artifacts_local rt t w di res art logs Hm Hr Ha Hl)|].
    simpl. now rewrite save_command_renders. }
  unfold local_copies, sources_to.
  repeat split; try intros H;
    destruct (String.eqb_spec (dir_logs t) ""), (String.eqb_spec art ""),
      (String.eqb_spec logs ""); simpl; congruence.
Qed.

Lemma save_artifacts_local_copies_witness :
  exists w',
    save_artifacts quiet_runtime (save_dirs "/r" "/a" "") (foo_resolved, world0 false)
      = ((foo_resolved, w'), Ok tt) /\
    trace w' = [EvEmit Normal (saving_text foo_resolved);
                EvExecute
                  "cp -rf /host/output/* /r;cp -rf /host/logs/* /r;cp -rf /host/output/* /a;"
                  ∅ None] /\
    sources_to ToLogs (local_copies foo_resolved "/a" "") = [].
Proof.
  destruct (save_artifacts_local_copies quiet_runtime foo_resolved
              (world0 false) (save_dirs "/r" "/a" "") "/r" "/a" "")
    as ((w' & Hrun & Htr) & Hlogs & _); try reflexivity.
  exists w'. split; [exact Hrun|]. split; [exact Htr|].
  apply Hlogs. reflexivity.
Defined.

(** C9 as stated fails for the results target: with an empty results
    argument the command still copies the output and the logs directory
    "to" it. *)
Lemma save_artifacts_empty_results_not_skipped :
  trace (snd (fst (save_artifacts quiet_runtime (save_dirs "" "/a" "/l")
                     (foo_resolved, world0 false))))
  = [EvEmit Normal (saving_text foo_resolved);
     EvExecute
       "cp -rf /host/output/* ;cp -rf /host/logs/* ;cp -rf /host/output/* /a;cp -rf /host/logs/* /l"
       ∅ None] /\
  sources_to ToResults (local_copies foo_resolved "/a" "/l")
  = ["/host/output"; "/host/logs"] /\
  ~ skips_empty_targets "" "/a" "/l" (local_copies foo_resolved "/a" "/l").
Proof.
  split; [reflexivity|]. split; [reflexivity|].
  intros H. specialize (H ToResults eq_refl). discriminate H.
Qed.

(** Before its directories are resolved the engine has no logs directory,
    and the results target gets the output only. *)
Example save_artifacts_without_logs_dir :
  sources_to ToResults (local_copies foo_local "/a" "/l") = [""].
Proof. reflexivity. Qed.

(** ** [clean_up] and [post_process] *)

Lemma clean_up_container (rt : Runtime) (t : AbstractTool) (w : World)
  (cid : string) :
  container_mode t = Some cid ->
  clean_up rt (t, w) = ((t, log_event (EvRemoveContainer cid) w), Ok tt).
Proof.
  intros Hm. unfold clean_up, mbind, M_bind, self. simpl. rewrite Hm.
  reflexivity.
Qed.

Lemma clean_up_local (rt : Runtime) (t : AbstractTool) (w : World) :
  container_mode t = None ->
  exists w',
    clean_up rt (t, w) = ((t, w'), Ok tt) /\
    values w' = values w /\ heap w' = heap w /\
    trace w' = trace w ++ EvIsDir (dir_expr t) ::
      (if on_isdir rt (trace w) (dir_expr t)
       then [EvExecute ("rm -rf " +:+ dir_expr t) ∅ None] else []).
Proof.
  intros Hm.
  unfold clean_up, mbind, M_bind, self, os_path.isdir,
    utilities.execute_command, call, call_fx, world, set_world, mbind, M_bind,
    mret, M_ret. simpl. rewrite Hm. simpl.
  destruct (on_isdir rt (trace w) (dir_expr t)); simpl;
    eexists; (split; [reflexivity|]); simpl; repeat split;
    now rewrite <- ?app_assoc.
Qed.

(** X1. [clean_up] removes the container of the engine, once, and runs no
    host command, when a container identifier is set; without one it asks
    whether the experiment directory exists and runs [rm -rf] on it only
    when it does. It always returns normally and leaves the engine, the
    settings and the statistics alone. *)
Theorem clean_up_removes (rt : Runtime) (t : AbstractTool) (w : World) :
  exists w',
    clean_up rt (t, w) = ((t, w'), Ok tt) /\
    values w' = values w /\ heap w' = heap w /\
    (forall cid, container_id t = Some cid -> cid <> "" ->
       trace w' = trace w ++ [EvRemoveContainer cid] /\ files w' = files w) /\
    (container_id t = None ->
       trace w' = trace w ++ EvIsDir (dir_expr t) ::
         (if on_isdir rt (trace w) (dir_expr t)
          then [EvExecute ("rm -rf " +:+ dir_expr t) ∅ None] else [])).
Proof.
  destruct (container_mode t) as [cid|] eqn:Hm.
  - eexists. split; [apply (clean_up_container rt t w cid Hm)|].
    simpl. split; [reflexivity|]. split; [reflexivity|]. split.
    + intros c Hc Hne. rewrite (container_mode_some t c Hc Hne) in Hm.
      injection Hm as ->. split; reflexivity.
    + intros Hn. rewrite (container_mode_none t Hn) in Hm. discriminate.
  - destruct (clean_up_local rt t w Hm) as (w' & Hrun & Hv & Hh & Htr).
    exists w'. split; [exact Hrun|]. split; [exact Hv|]. split; [exact Hh|].
    split.
    + intros c Hc Hne. rewrite (container_mode_some t c Hc Hne) in Hm.
      discriminate.
    + intros _. exact Htr.
Qed.

Lemma post_process_unfold (rt : Runtime) (t : AbstractTool) (w : World) :
  post_process rt (t, w) =
  let w1 := match container_mode t with
            | Some cid => log_event (EvStopContainer cid) w
            | None => w
            end in
  if is_purge (values w) then clean_up rt (t, w1) else ((t, w1), Ok tt).
Proof.
  unfold post_process, mbind, M_bind, self, world, container.stop_container,
    set_world. simpl.
  destruct (container_mode t); simpl; destruct (is_purge (values w)); reflexivity.
Qed.

(** X2. [post_process] stops the container of the engine first and, when
    purging is on, removes it afterwards: stop, then remove, of the same
    identifier, and no host command. Without a container identifier it
    calls no container operation at all: it does nothing when purging is
    off, and cleans the experiment directory up when it is on. *)
Theorem post_process_stops_then_purges (rt : Runtime) (t : AbstractTool)
  (w : World) :
  exists w',
    post_process rt (t, w) = ((t, w'), Ok tt) /\
    (forall cid, container_id t = Some cid -> cid <> "" ->
       trace w' = trace w ++ EvStopContainer cid ::
         (if is_purge (values w) then [EvRemoveContainer cid] else []) /\
       files w' = files w) /\
    (container_id t = None -> is_purge (values w) = false -> w' = w) /\
    (container_id t = None -> is_purge (values w) = true ->
       trace w' = trace w ++ EvIsDir (dir_expr t) ::
         (if on_isdir rt (trace w) (dir_expr t)
          then [EvExecute ("rm -rf " +:+ dir_expr t) ∅ None] else [])).
Proof.
  rewrite post_process_unfold. cbv zeta.
  destruct (container_mode t) as [cid|] eqn:Hm.
  - assert (Hnone : container_id t <> None)
      by (intros Hn; rewrite (container_mode_none t Hn) in Hm; discriminate).
    destruct (is_purge (values w)) eqn:Hp.
    + rewrite (clean_up_container rt t _ cid Hm).
      eexists. split; [reflexivity|]. simpl. split; [|split; intros; contradiction].
      intros c Hc Hne. rewrite (container_mode_some t c Hc Hne) in Hm.
      injection Hm as ->. split; [now rewrite <- app_assoc | reflexivity].
    + eexists. split; [reflexivity|]. simpl. split; [|split; intros; contradiction].
      intros c Hc Hne. rewrite (container_mode_some t c Hc Hne) in Hm.
      injection Hm as ->. split; reflexivity.
  - assert (Hsome : forall c, container_id t = Some c -> c <> "" -> False)
      by (intros c Hc Hne; rewrite (container_mode_some t c Hc Hne) in Hm;
          discriminate).
    destruct (is_purge (values w)) eqn:Hp.
    + destruct (clean_up_local rt t w Hm) as (w' & Hrun & Hv & Hh & Htr).
      rewrite Hrun. exists w'. split; [reflexivity|].
      split; [intros c Hc Hne; destruct (Hsome c Hc Hne)|].
      split; [discriminate | intros _ _; exact Htr].
    + eexists. split; [reflexivity|].
      split; [intros c Hc Hne; destruct (Hsome c Hc Hne)|].
      split; [reflexivity | discriminate].
Qed.

Lemma clean_up_removes_witness :
  exists w',
    clean_up registry_runtime (foo_local, world0 false)
      = ((foo_local, w'), Ok tt) /\
    trace w' = [EvIsDir ""; EvExecute "rm -rf " ∅ None].
Proof.
  destruct (clean_up_removes registry_runtime foo_local (world0 false))
    as (w' & Hrun & _ & _ & _ & Hlocal).
  exists w'. split; [exact Hrun|]. exact (Hlocal eq_refl).
Defined.

Lemma post_process_stops_then_purges_witness :
  exists w',
    post_process quiet_runtime (foo_container, purge_world)
      = ((foo_container, w'), Ok tt) /\
    trace w' = [EvStopContainer "c0ffee"; EvRemoveContainer "c0ffee"].
Proof.
  destruct (post_process_stops_then_purges quiet_runtime foo_container
              purge_world) as (w' & Hrun & Hcont & _).
  exists w'. split; [exact Hrun|].
  destruct (Hcont "c0ffee") as [Htr _]; [reflexivity | discriminate | exact Htr].
Defined.

(** ** [save_artifacts], container mode and missing keys *)

Lemma save_artifacts_container (rt : Runtime) (t : AbstractTool) (w : World)
  (di : gmap string string) (cid res art logs : string) :
  container_mode t = Some cid ->
  di !! "results" = Some res -> di !! "artifacts" = Some art ->
  di !! "logs" = Some logs ->
  save_artifacts rt di (t, w) =
  ((t, {| values := values w;
          trace := trace w ++
            [EvEmit Normal (saving_text t);
             EvCopyFromContainer cid (dir_output t) res;
             EvCopyFromContainer cid (dir_logs t) res;
             EvCopyFromContainer cid (dir_output t) art;
             EvCopyFromContainer cid (dir_logs t) logs];
          files := files w; heap := heap w |}), Ok tt).
Proof.
  intros Hm Hr Ha Hl.
  unfold save_artifacts, mbind, M_bind, self, emitter.normal, getitem,
    container.copy_file_from_container, set_world, mbind, M_bind, mret, M_ret.
  simpl. rewrite Hr. simpl. rewrite Ha. simpl. rewrite Hl. simpl. rewrite Hm.
  simpl. unfold log_event, saving_text. simpl.
  rewrite <- !app_assoc. reflexivity.
Qed.

(** X3. In container mode [save_artifacts] asks for exactly four copies
    out of the container of the engine, in this order: output to results,
    logs to results, output to artifacts, logs to logs. No target is
    guarded: an empty target argument gets its copies all the same. No
    host command is run and no file of the store changes. *)
Theorem save_artifacts_container_copies (rt : Runtime) (t : AbstractTool)
  (w : World) (di : gmap string string) (cid res art logs : string) :
  container_id t = Some cid -> cid <> "" ->
  di !! "results" = Some res -> di !! "artifacts" = Some art ->
  di !! "logs" = Some logs ->
  exists w',
    save_artifacts rt di (t, w) = ((t, w'), Ok tt) /\
    trace w' = trace w ++
      [EvEmit Normal (saving_text t);
       EvCopyFromContainer cid (dir_output t) res;
       EvCopyFromContainer cid (dir_logs t) res;
       EvCopyFromContainer cid (dir_output t) art;
       EvCopyFromContainer cid (dir_logs t) logs] /\
    files w' = files w /\ values w' = values w.
Proof.
  intros Hc Hne Hr Ha Hl.
  eexists. split.
  - apply (save_artifacts_container rt t w di cid res art logs
             (container_mode_some t cid Hc Hne) Hr Ha Hl).
  - simpl. repeat split.
Qed.

Lemma save_artifacts_container_copies_witness :
  exists w',
    save_artifacts quiet_runtime (save_dirs "/r" "" "")
      (foo_container_resolved, world0 true)
      = ((foo_container_resolved, w'), Ok tt) /\
    trace w' = [EvEmit Normal (saving_text foo_container_resolved);
                EvCopyFromContainer "c0ffee" "/output" "/r";
                EvCopyFromContainer "c0ffee" "/logs" "/r";
                EvCopyFromContainer "c0ffee" "/output" "";
                EvCopyFromContainer "c0ffee" "/logs" ""].
Proof.
  destruct (save_artifacts_container_copies quiet_runtime
              foo_container_resolved (world0 true) (save_dirs "/r" "" "")
              "c0ffee" "/r" "" "")
    as (w' & Hrun & Htr & _); try reflexivity; [discriminate|].
  exists w'. split; assumption.
Defined.

(** X4. When the dict given to [save_artifacts] lacks one of the keys
    "results", "artifacts" and "logs", the call raises [KeyError] for the
    first of them that is missing, in either mode. The only thing done by
    then is the message that artifacts are being saved: nothing is copied
    and no host command is run. *)
Theorem save_artifacts_missing_key (rt : Runtime) (t : AbstractTool)
  (w : World) (di : gmap string string) :
  di !! "results" = None \/ di !! "artifacts" = None \/ di !! "logs" = None ->
  exists k,
    save_artifacts rt di (t, w)
    = ((t, log_event (EvEmit Normal (saving_text t)) w), Raise (KeyError k)) /\
    di !! k = None /\
    (k = "results" \/
     k = "artifacts" /\ is_Some (di !! "results") \/
     k = "logs" /\ is_Some (di !! "results") /\ is_Some (di !! "artifacts")).
Proof.
  intros Hmiss.
  unfold save_artifacts, mbind, M_bind, self, emitter.normal, getitem,
    set_world, raise. simpl. fold (saving_text t).
  destruct (di !! "results") as [res|] eqn:Hr; simpl.
  2:{ exists "results". split; [reflexivity|]. split; [exact Hr | now left]. }
  destruct (di !! "artifacts") as [art|] eqn:Ha; simpl.
  2:{ exists "artifacts". split; [reflexivity|]. split; [exact Ha|].
      right; left. split; [reflexivity | now exists res]. }
  destruct (di !! "logs") as [logs|] eqn:Hl; simpl.
  2:{ exists "logs". split; [reflexivity|]. split; [exact Hl|].
      right; right. repeat split; eauto. }
  destruct Hmiss as [H|[H|H]]; discriminate H.
Qed.

Lemma save_artifacts_missing_key_witness :
  exists k,
    save_artifacts quiet_runtime (<["results" := "/r"]> ∅)
      (foo_container_resolved, world0 true)
    = ((foo_container_resolved,
        log_event (EvEmit Normal (saving_text foo_container_resolved))
                  (world0 true)), Raise (KeyError k)) /\
    k = "artifacts".
Proof.
  destruct (save_artifacts_missing_key quiet_runtime foo_container_resolved
              (world0 true) (<["results" := "/r"]> ∅))
    as (k & Hrun & Hk & Hwhich); [right; left; reflexivity|].
  exists k. split; [exact Hrun|].
  destruct Hwhich as [->|[[-> _]|[-> [_ [x Hx]]]]];
    [discriminate Hk | reflexivity | discriminate Hx].
Defined.

(** ** Splitting at a character *)

Lemma contains_char_cons (c a : ascii) (r : string) :
  contains (String c "") (String a r)
  = Ascii.eqb c a || contains (String c "") r.
Proof. simpl. destruct (Ascii.eqb c a); reflexivity. Qed.

Lemma contains_char_nil (c : ascii) : contains (String c "") "" = false.
Proof. reflexivity. Qed.

Lemma split_on_cons (c : ascii) (s : string) :
  exists h tl, split_on c s = h :: tl.
Proof.
  induction s as [|a s (h & tl & IH)]; simpl; [eauto|].
  destruct (Ascii.eqb a c); [eauto|]. rewrite IH. eauto.
Qed.

Lemma split_on_no_sep (c : ascii) (s : string) :
  contains (String c "") s = false -> split_on c s = [s].
Proof.
  induction s as [|a s IH]; [reflexivity|].
  rewrite contains_char_cons. intros H. apply orb_false_iff in H as [Hc Hs].
  simpl. rewrite Ascii.eqb_sym, Hc, (IH Hs). reflexivity.
Qed.

Lemma split_on_app (c : ascii) (a b : string) :
  contains (String c "") a = false ->
  split_on c (a +:+ String c b) = a :: split_on c b.
Proof.
  induction a as [|x a IH].
  - intros _. change (split_on c (String c b) = "" :: split_on c b).
    simpl. now rewrite Ascii.eqb_refl.
  - rewrite contains_char_cons. intros H.
    apply orb_false_iff in H as [Hc Ha].
    change (split_on c (String x (a +:+ String c b))
            = String x a :: split_on c b).
    simpl. rewrite Ascii.eqb_sym, Hc, (IH Ha). reflexivity.
Qed.

Lemma split_on_parts (c : ascii) (s : string) :
  Forall (fun p => contains (String c "") p = false) (split_on c s).
Proof.
  induction s as [|a s IH]; simpl.
  - constructor; [reflexivity | constructor].
  - destruct (Ascii.eqb a c) eqn:E.
    + constructor; [reflexivity | exact IH].
    + destruct (split_on c s) as [|h tl].
      * constructor; [|constructor].
        rewrite contains_char_cons, Ascii.eqb_sym, E. reflexivity.
      * inversion IH as [|? ? Hh Htl]; subst. constructor; [|exact Htl].
        rewrite contains_char_cons, Ascii.eqb_sym, E. exact Hh.
Qed.

Lemma join_on_split_on (c : ascii) (s : string) :
  join_on c (split_on c s) = s.
Proof.
  induction s as [|a s IH]; [reflexivity|]. simpl.
  destruct (Ascii.eqb_spec a c) as [->|Hne].
  - destruct (split_on_cons c s) as (h & tl & E). rewrite E in IH |- *.
    change (join_on c ("" :: h :: tl)) with (String c (join_on c (h :: tl))).
    now rewrite IH.
  - destruct (split_on_cons c s) as (h & tl & E). rewrite E in IH |- *.
    destruct tl as [|h' tl].
    + simpl in IH |- *. now rewrite IH.
    + change (join_on c (String a h :: h' :: tl))
        with (String a (h +:+ String c (join_on c (h' :: tl)))).
      f_equal. exact IH.
Qed.

(** ** Image references *)

Lemma repo_tag_with_colon (r tg : string) :
  contains ":" r = false -> contains ":" tg = false ->
  repo_tag (r +:+ ":" +:+ tg) = Ok (r, tg).
Proof.
  intros Hr Ht. unfold repo_tag.
  assert (Hc : contains ":" (r +:+ ":" +:+ tg) = true)
    by (apply contains_spec; now exists r, tg).
  rewrite Hc. change (r +:+ ":" +:+ tg) with (r +:+ String ":" tg).
  rewrite (split_on_app ":" r tg Hr), (split_on_no_sep ":" tg Ht).
  reflexivity.
Qed.

(** X5. An image reference is accepted exactly when it has no colon, and
    then names the repository with tag "latest", or when it is repository,
    colon, tag with no colon inside either part. *)
Theorem repo_tag_ok_iff (img r tg : string) :
  repo_tag img = Ok (r, tg) <->
  (contains ":" img = false /\ r = img /\ tg = "latest") \/
  (img = r +:+ ":" +:+ tg /\ contains ":" r = false /\ contains ":" tg = false).
Proof.
  unfold repo_tag. split.
  - destruct (contains ":" img) eqn:Hc.
    + intros H. right.
      pose proof (join_on_split_on ":" img) as Hj.
      pose proof (split_on_parts ":" img) as Hp.
      destruct (split_on ":" img) as [|a [|b [|x l]]]; try discriminate H.
      injection H as -> ->. split; [now rewrite <- Hj|].
      inversion Hp as [|? ? Ha Hb]; subst. inversion Hb; subst. auto.
    + intros H. injection H as <- <-. now left.
  - intros [(Hc & -> & ->)|(-> & Hr & Ht)].
    + now rewrite Hc.
    + fold (repo_tag (r +:+ ":" +:+ tg)). now apply repo_tag_with_colon.
Qed.

Lemma check_tool_exists_bad_reference (rt : Runtime) (t : AbstractTool)
  (w : World) (img : string) (e : Exn) :
  use_container (values w) = true ->
  image_name t = Some img ->
  repo_tag img = Raise e ->
  check_tool_exists rt (t, w) = ((t, w), Raise e).
Proof.
  intros Hc Hi Hp.
  unfold check_tool_exists, mbind, M_bind, self, world, lift. simpl.
  rewrite Hc, Hi. simpl. rewrite Hp. reflexivity.
Qed.

Lemma repo_tag_two_colons (a b c : string) :
  contains ":" a = false -> contains ":" b = false ->
  repo_tag (a +:+ ":" +:+ b +:+ ":" +:+ c)
  = Raise (ValueError "too many values to unpack (expected 2)").
Proof.
  intros Ha Hb. unfold repo_tag.
  assert (Hc : contains ":" (a +:+ ":" +:+ b +:+ ":" +:+ c) = true)
    by (apply contains_spec; now exists a, (b +:+ ":" +:+ c)).
  rewrite Hc.
  change (a +:+ ":" +:+ b +:+ ":" +:+ c)
    with (a +:+ String ":" (b +:+ String ":" c)).
  rewrite (split_on_app ":" a _ Ha), (split_on_app ":" b c Hb).
  destruct (split_on_cons ":" c) as (h & tl & ->). reflexivity.
Qed.

(** X6. An image reference with two colons or more, as one that names a
    registry with its port, makes the provisioning check raise
    [ValueError] when it unpacks the split reference, before the image
    store is asked anything: the world is as it was. *)
Theorem check_tool_exists_two_colons (rt : Runtime) (t : AbstractTool)
  (w : World) (a b c : string) :
  use_container (values w) = true ->
  image_name t = Some (a +:+ ":" +:+ b +:+ ":" +:+ c) ->
  contains ":" a = false -> contains ":" b = false ->
  check_tool_exists rt (t, w)
  = ((t, w), Raise (ValueError "too many values to unpack (expected 2)")).
Proof.
  intros Hc Hi Ha Hb.
  apply (check_tool_exists_bad_reference rt t w _ _ Hc Hi).
  now apply repo_tag_two_colons.
Qed.

Lemma check_tool_exists_two_colons_witness :
  check_tool_exists quiet_runtime
    (set_image_name (Some "registry:5000/cerberus:foo") foo_local, world0 true)
  = ((set_image_name (Some "registry:5000/cerberus:foo") foo_local, world0 true),
     Raise (ValueError "too many values to unpack (expected 2)")).
Proof.
  apply (check_tool_exists_two_colons quiet_runtime _ (world0 true)
           "registry" "5000/cerberus" "foo"); reflexivity.
Defined.

(** ** Provisioning: image absent locally, and the host check *)

Lemma check_tool_exists_not_found_locally (rt : Runtime) (t : AbstractTool)
  (w : World) (img repo tag : string) :
  use_container (values w) = true ->
  image_name t = Some img ->
  repo_tag img = Ok (repo, tag) ->
  on_image_exists rt (trace w) repo tag = false ->
  check_tool_exists rt (t, w) =
  ((t, {| values := values w;
          trace := trace w ++ [EvImageExists repo tag;
                               EvEmit Warning docker_not_found_msg;
                               EvPullImage repo tag];
          files := files w; heap := heap w |}),
   match first_pull rt w repo tag with
   | Some _ => Ok tt
   | None => Raise (ErrorExit
                      (name t +:+ " does not provide a Docker image in Dockerhub"))
   end).
Proof.
  intros Hc Hi Hp He. unfold first_pull.
  unfold check_tool_exists, mbind, M_bind, self, world, lift,
    container.image_exists, container.pull_image, emitter.warning,
    utilities.error_exit, raise, call, set_world, mbind, M_bind, mret, M_ret.
  simpl. rewrite Hi, Hc. simpl. rewrite Hp. simpl. rewrite He. simpl.
  unfold log_event, docker_not_found_msg. simpl. rewrite <- !app_assoc. simpl.
  destruct (on_pull_image rt _ repo tag); reflexivity.
Qed.

(** X7. A provisioning check in container mode that does not find the
    image locally warns and pulls it, once. When the pull succeeds the
    check returns normally and the rebuild-required flag is what it was;
    when it fails the check ends in the fatal error that the tool has no
    image in the registry. Either way the local image is never fetched. *)
Theorem check_tool_exists_pulls_missing_image (rt : Runtime)
  (t : AbstractTool) (w : World) (img repo tag : string) :
  use_container (values w) = true ->
  image_name t = Some img ->
  repo_tag img = Ok (repo, tag) ->
  on_image_exists rt (trace w) repo tag = false ->
  exists w',
    fst (check_tool_exists rt (t, w)) = (t, w') /\
    values w' = values w /\
    trace w' = trace w ++ [EvImageExists repo tag;
                           EvEmit Warning docker_not_found_msg;
                           EvPullImage repo tag] /\
    (forall new, first_pull rt w repo tag = Some new ->
       snd (check_tool_exists rt (t, w)) = Ok tt) /\
    (first_pull rt w repo tag = None ->
       snd (check_tool_exists rt (t, w))
       = Raise (ErrorExit
                  (name t +:+ " does not provide a Docker image in Dockerhub"))).
Proof.
  intros Hc Hi Hp He.
  rewrite (check_tool_exists_not_found_locally rt t w img repo tag Hc Hi Hp He).
  eexists. split; [reflexivity|]. simpl.
  split; [reflexivity|]. split; [reflexivity|]. split.
  - intros new ->. reflexivity.
  - intros ->. reflexivity.
Qed.

Lemma check_tool_exists_pulls_missing_image_witness :
  exists w',
    check_tool_exists registry_runtime (foo_engine, world0 true)
      = ((foo_engine, w'), Ok tt) /\
    rebuild_all (values w') = false /\
    trace w' = [EvImageExists "cerberus" "foo";
                EvEmit Warning docker_not_found_msg;
                EvPullImage "cerberus" "foo"].
Proof.
  destruct (check_tool_exists_pulls_missing_image registry_runtime foo_engine
              (world0 true) "cerberus:foo" "cerberus" "foo")
    as (w' & Hst & Hv & Htr & Hok & _); try reflexivity.
  exists w'. split.
  - rewrite (surjective_pairing (check_tool_exists _ _)), Hst.
    now rewrite (Hok {| image_id := "new" |} eq_refl).
  - split; [now rewrite Hv | exact Htr].
Defined.

(** X8. Without containers the provisioning check looks the lower-cased
    name of the tool up on the search path, once, and asks nothing else:
    the image store is not consulted and the settings are untouched. A
    missing or empty answer is the fatal error "<name> not Found", with the
    name as it is written; any other answer lets the check return. *)
Theorem check_tool_exists_on_host (rt : Runtime) (t : AbstractTool)
  (w : World) :
  use_container (values w) = false ->
  fst (check_tool_exists rt (t, w))
  = (t, log_event (EvWhich (lower (name t))) w) /\
  (forall p, on_which rt (trace w) (lower (name t)) = Some p -> p <> "" ->
     snd (check_tool_exists rt (t, w)) = Ok tt) /\
  (on_which rt (trace w) (lower (name t)) = None \/
   on_which rt (trace w) (lower (name t)) = Some "" ->
     snd (check_tool_exists rt (t, w))
     = Raise (ErrorExit (name t +:+ " not Found"))).
Proof.
  intros Hc.
  unfold check_tool_exists, mbind, M_bind, self, world, shutil.which, call,
    utilities.error_exit, raise, set_world, mbind, M_bind, mret, M_ret.
  simpl. rewrite Hc. simpl.
  destruct (on_which rt (trace w) (lower (name t))) as [[|x p]|]; simpl.
  - split; [reflexivity|]. split; [|reflexivity].
    intros p H Hne. injection H as <-. contradiction.
  - split; [reflexivity|]. split; [reflexivity|].
    intros [H|H]; discriminate H.
  - split; [reflexivity|]. split; [|reflexivity].
    intros p H. discriminate H.
Qed.

Lemma check_tool_exists_on_host_witness :
  check_tool_exists quiet_runtime (foo_local, world0 false)
  = ((foo_local, log_event (EvWhich "foo") (world0 false)),
     Raise (ErrorExit "Foo not Found")).
Proof.
  destruct (check_tool_exists_on_host quiet_runtime foo_local (world0 false))
    as (Hst & _ & Hfail); [reflexivity|].
  rewrite (surjective_pairing (check_tool_exists _ _)), Hst.
  now rewrite (Hfail (or_introl eq_refl)).
Defined.

(** ** The constructor of [AbstractTool] and the check *)

Lemma lower_ascii_colon (a : ascii) :
  Ascii.eqb ":" (lower_ascii a) = Ascii.eqb ":" a.
Proof. destruct a as [[] [] [] [] [] [] [] []]; reflexivity. Qed.

Lemma lower_keeps_colons (s : string) :
  contains ":" (lower s) = contains ":" s.
Proof.
  induction s as [|a s IH]; [reflexivity|].
  change (lower (String a s)) with (String (lower_ascii a) (lower s)).
  now rewrite !contains_char_cons, lower_ascii_colon, IH.
Qed.

Lemma check_tool_exists_first_lookup (rt : Runtime) (t : AbstractTool)
  (w : World) (img repo tag : string) :
  use_container (values w) = true ->
  image_name t = Some img ->
  repo_tag img = Ok (repo, tag) ->
  exists rest,
    trace (snd (fst (check_tool_exists rt (t, w))))
    = trace w ++ EvImageExists repo tag :: rest.
Proof.
  intros Hc Hi Hp.
  destruct (on_image_exists rt (trace w) repo tag) eqn:He.
  - rewrite (check_tool_exists_found_locally rt t w img repo tag Hc Hi Hp He).
    simpl. eexists. reflexivity.
  - rewrite (check_tool_exists_not_found_locally rt t w img repo tag Hc Hi Hp He).
    simpl. eexists. reflexivity.
Qed.

(** X9. An engine built by the constructor of [AbstractTool] refers to
    the image "cerberus:<lower-cased tool name>". For a tool name without a
    colon its provisioning check in container mode asks the image store for
    repository "cerberus" with the lower-cased name as tag; a tool name
    with a colon makes the check raise [ValueError] before any lookup. *)
Theorem constructed_tool_image (rt : Runtime) (tool_name : string)
  (stats0 : loc) (w : World) :
  use_container (values w) = true ->
  let s := fst (AbstractTool_init tool_name (class_defaults stats0, w)) in
  image_name (fst s) = Some ("cerberus:" +:+ lower tool_name) /\
  (contains ":" tool_name = false ->
     exists rest,
       trace (snd (fst (check_tool_exists rt s)))
       = trace w ++ EvEmit Debug ("using tool: " +:+ tool_name)
           :: EvImageExists "cerberus" (lower tool_name) :: rest) /\
  (contains ":" tool_name = true ->
     check_tool_exists rt s
     = (s, Raise (ValueError "too many values to unpack (expected 2)"))).
Proof.
  intros Hc. cbv zeta.
  change (fst (AbstractTool_init tool_name (class_defaults stats0, w)))
    with (set_image_name (Some ("cerberus:" +:+ lower tool_name))
            (class_defaults stats0),
          log_event (EvEmit Debug ("using tool: " +:+ tool_name)) w).
  split; [reflexivity|]. split.
  - intros Hn.
    assert (Hp : repo_tag ("cerberus:" +:+ lower tool_name)
                 = Ok ("cerberus", lower tool_name)).
    { apply (repo_tag_with_colon "cerberus" (lower tool_name));
        [reflexivity | now rewrite lower_keeps_colons]. }
    destruct (check_tool_exists_first_lookup rt
                (set_image_name (Some ("cerberus:" +:+ lower tool_name))
                   (class_defaults stats0))
                (log_event (EvEmit Debug ("using tool: " +:+ tool_name)) w)
                ("cerberus:" +:+ lower tool_name) "cerberus" (lower tool_name)
                Hc eq_refl Hp) as [rest Hrest].
    exists rest. rewrite Hrest. simpl. now rewrite <- app_assoc.
  - intros Hy. rewrite <- lower_keeps_colons in Hy.
    apply contains_spec in Hy as (a & b & Hab).
    pose proof (join_on_split_on ":" (lower tool_name)) as Hj.
    pose proof (split_on_parts ":" (lower tool_name)) as Hparts.
    assert (Hc2 : contains ":" (lower tool_name) = true)
      by (apply contains_spec; eauto).
    destruct (split_on ":" (lower tool_name)) as [|p [|q l]] eqn:Hs.
    + destruct (split_on_cons ":" (lower tool_name)) as (h & tl & E).
      congruence.
    + simpl in Hj. subst p. inversion Hparts; subst. congruence.
    + apply (check_tool_exists_bad_reference rt
               (set_image_name (Some ("cerberus:" +:+ lower tool_name))
                  (class_defaults stats0))
               (log_event (EvEmit Debug ("using tool: " +:+ tool_name)) w)
               ("cerberus:" +:+ lower tool_name) _ Hc eq_refl).
      unfold repo_tag.
      assert (Hc3 : contains ":" ("cerberus:" +:+ lower tool_name) = true)
        by (apply contains_spec; now exists "cerberus", (lower tool_name)).
      rewrite Hc3.
      change ("cerberus:" +:+ lower tool_name)
        with ("cerberus" +:+ String ":" (lower tool_name)).
      rewrite (split_on_app ":" "cerberus" _ eq_refl), Hs. reflexivity.
Qed.

Lemma constructed_tool_image_witness :
  exists rest,
    trace (snd (fst (check_tool_exists stale_runtime
                       (fst (AbstractTool_init "Foo"
                               (class_defaults 0%nat, world0 true))))))
    = EvEmit Debug "using tool: Foo" :: EvImageExists "cerberus" "foo" :: rest.
Proof.
  destruct (constructed_tool_image stale_runtime "Foo" 0%nat (world0 true))
    as (_ & Hlook & _); [reflexivity|].
  destruct (Hlook eq_refl) as [rest Hrest]. exists rest. exact Hrest.
Defined.

(** ** [update_dir_info], once more *)

Lemma same_but_dirs_refl (s : State) : same_but_dirs s s.
Proof. repeat split. Qed.

Lemma same_but_dirs_trans (a b c : State) :
  same_but_dirs a b -> same_but_dirs b c -> same_but_dirs a c.
Proof.
  unfold same_but_dirs. intros (A1 & A2 & A3 & A4 & A5 & A6 & A7 & A8)
    (B1 & B2 & B3 & B4 & B5 & B6 & B7 & B8).
  repeat split; congruence.
Qed.

Lemma update_dir_info_same_but_dirs (di : gmap string dir_dict) :
  preserves same_but_dirs (update_dir_info di).
Proof.
  unfold update_dir_info, getitem2.
  repeat first
    [ apply (preserves_bind _ same_but_dirs_trans); [|intros]
    | apply (preserves_ret _ same_but_dirs_refl)
    | apply (preserves_self _ same_but_dirs_refl)
    | apply (preserves_world _ same_but_dirs_refl)
    | apply (preserves_getitem _ same_but_dirs_refl)
    | apply preserves_set_self; intros; solve [repeat split]
    | match goal with
      | |- preserves _ (if ?b then _ else _) => destruct b
      end ].
Qed.

Lemma update_dir_info_ok_inv (di : gmap string dir_dict) (t : AbstractTool)
  (w : World) (s' : State) :
  update_dir_info di (t, w) = (s', Ok tt) ->
  exists d e l i s o,
    di !! mode_key t = Some d /\
    d !! "experiment" = Some e /\ d !! "logs" = Some l /\
    d !! "instrumentation" = Some i /\ d !! "setup" = Some s /\
    d !! "artifacts" = Some o /\
    s' = (resolved_dirs e l i s o
            (if truthy_opt_str (container_id t) then "/experiment"
             else dir_experiments (values w)) t, w).
Proof.
  unfold mode_key, mode_key_of.
  unfold update_dir_info, mbind, M_bind, self, world, getitem2, getitem,
    set_self, mbind, M_bind, raise. simpl.
  destruct (truthy_opt_str (container_id t)) eqn:Hm.
  - destruct (di !! "container") as [d|] eqn:Hd; simpl; [|discriminate].
    destruct (d !! "experiment") as [e|] eqn:He; simpl; [|discriminate].
    destruct (d !! "logs") as [l|] eqn:Hl; simpl; [|discriminate].
    destruct (d !! "instrumentation") as [i|] eqn:Hi; simpl; [|discriminate].
    destruct (d !! "setup") as [s|] eqn:Hs; simpl; [|discriminate].
    destruct (d !! "artifacts") as [o|] eqn:Ho; simpl; [|discriminate].
    intros H. injection H as <-. exists d, e, l, i, s, o. auto 10.
  - destruct (di !! "local") as [d|] eqn:Hd; simpl; [|discriminate].
    destruct (d !! "experiment") as [e|] eqn:He; simpl; [|discriminate].
    destruct (d !! "logs") as [l|] eqn:Hl; simpl; [|discriminate].
    destruct (d !! "instrumentation") as [i|] eqn:Hi; simpl; [|discriminate].
    destruct (d !! "setup") as [s|] eqn:Hs; simpl; [|discriminate].
    destruct (d !! "artifacts") as [o|] eqn:Ho; simpl; [|discriminate].
    intros H. injection H as <-. exists d, e, l, i, s, o. auto 10.
Qed.

(** X10. Resolving the directories touches nothing but the directory
    attributes of the engine: its mode, name, image reference, log paths
    and statistics, and the whole world, are as before, also when the call
    fails half way. A call that succeeded can be repeated with the same
    descriptor without any further change. *)
Theorem update_dir_info_idempotent (di : gmap string dir_dict)
  (t : AbstractTool) (w : World) :
  same_but_dirs (t, w) (fst (update_dir_info di (t, w))) /\
  (snd (update_dir_info di (t, w)) = Ok tt ->
   update_dir_info di (fst (update_dir_info di (t, w)))
   = update_dir_info di (t, w)).
Proof.
  split; [apply update_dir_info_same_but_dirs|].
  destruct (update_dir_info di (t, w)) as [s' r] eqn:Hrun. simpl.
  intros ->.
  destruct (update_dir_info_ok_inv di t w s' Hrun)
    as (d & e & l & i & s & o & Hd & He & Hl & Hi & Hs & Ho & ->).
  unfold mode_key, mode_key_of in Hd.
  destruct (truthy_opt_str (container_id t)) eqn:Hm.
  - rewrite (update_dir_info_container di _ w d e l i s o); auto.
  - rewrite (update_dir_info_local di _ w d e l i s o); auto.
Qed.

Lemma update_dir_info_idempotent_witness :
  update_dir_info demo_dir_info
    (fst (update_dir_info demo_dir_info (foo_container, world0 true)))
  = update_dir_info demo_dir_info (foo_container, world0 true).
Proof.
  destruct (update_dir_info_idempotent demo_dir_info foo_container
              (world0 true)) as [_ H].
  apply H. reflexivity.
Defined.

(** ** [run_command] without captured output *)

(** X11. In container mode a command of which nothing was captured (no
    output at all, or two empty streams) leaves the log alone whatever
    the log path is: no append is made, so the log file is not even
    created; the call still returns the exit code. *)
Theorem run_command_nothing_captured (rt : Runtime) (t : AbstractTool)
  (w : World) (cid c l : string) (dp : option string) (env : env_dict) :
  container_id t = Some cid -> cid <> "" ->
  snd (on_exec_command rt (trace w) cid c (container_dir dp) env) = None \/
  snd (on_exec_command rt (trace w) cid c (container_dir dp) env)
    = Some ([], []) ->
  run_command rt c l dp env (t, w)
  = ((t, after_exec rt cid c (container_dir dp) env w),
     Ok (fst (on_exec_command rt (trace w) cid c (container_dir dp) env))).
Proof.
  intros Hc Hne Hout.
  rewrite (run_command_container rt t w cid c l dp env
             (container_mode_some t cid Hc Hne)). cbv zeta.
  destruct Hout as [-> | ->]; [reflexivity|].
  destruct (contains "/dev/null" l); reflexivity.
Qed.

Lemma run_command_nothing_captured_witness :
  run_command quiet_runtime "true" "/logs/out.log" None ∅
    (foo_container, world0 true)
  = ((foo_container,
      {| values := values (world0 true);
         trace := [EvExecCommand "c0ffee" "true" "/experiment" ∅];
         files := ∅; heap := [ToolStats_new] |}), Ok 0).
Proof.
  apply (run_command_nothing_captured quiet_runtime foo_container
           (world0 true) "c0ffee" "true" "/logs/out.log" None ∅);
    [reflexivity | discriminate | left; reflexivity].
Defined.

(** ** The pattern of output logs *)

Lemma output_log_tail_spec (s : string) :
  output_log_tail s = true <->
  exists c e, s = "-output" +:+ String c ("log" +:+ e) /\
              is_newline c = false /\ (e = "" \/ e = newline).
Proof.
  unfold output_log_tail. rewrite andb_true_iff, str_prefix_spec. split.
  - intros [[b ->] H].
    change (str_drop 7 ("-output" +:+ b)) with b in H.
    destruct b as [|c rest]; [discriminate H|].
    apply andb_true_iff in H as [Hc Hrest].
    apply negb_true_iff in Hc. apply orb_true_iff in Hrest.
    destruct Hrest as [H|H]; apply String.eqb_eq in H; subst rest.
    + exists c, "". auto.
    + exists c, newline. auto.
  - intros (c & e & -> & Hc & He). split; [eexists; reflexivity|].
    change (str_drop 7 ("-output" +:+ String c ("log" +:+ e)))
      with (String c ("log" +:+ e)).
    cbv beta iota. rewrite Hc. simpl. destruct He as [-> | ->]; reflexivity.
Qed.

Lemma output_log_match_intro (p : string) (c : ascii) (e : string) :
  single_line p = true -> is_newline c = false -> e = "" \/ e = newline ->
  output_log_match (p +:+ "-output" +:+ String c ("log" +:+ e)) = true.
Proof.
  intros Hp Hc He. induction p as [|x p IH].
  - change ("" +:+ "-output" +:+ String c ("log" +:+ e))
      with ("-output" +:+ String c ("log" +:+ e)).
    assert (Ht : output_log_tail ("-output" +:+ String c ("log" +:+ e)) = true)
      by (apply output_log_tail_spec; eauto).
    change (output_log_match ("-output" +:+ String c ("log" +:+ e)))
      with (output_log_tail ("-output" +:+ String c ("log" +:+ e))
            || (negb (is_newline "-") && output_log_match
                  ("output" +:+ String c ("log" +:+ e)))).
    now rewrite Ht.
  - simpl in Hp. apply andb_true_iff in Hp as [Hx Hp].
    change (output_log_match
              (String x p +:+ "-output" +:+ String c ("log" +:+ e)))
      with (output_log_tail
              (String x (p +:+ "-output" +:+ String c ("log" +:+ e)))
            || (negb (is_newline x) && output_log_match
                  (p +:+ "-output" +:+ String c ("log" +:+ e)))).
    rewrite Hx, (IH Hp). simpl. apply orb_true_r.
Qed.

(** X12. The pattern of [get_output_log_path] accepts exactly the names
    made of a run without newline, "-output", one character that is not a
    newline, and "log", up to the end of the name or to a newline that
    ends it. The character before "log" need not be a dot. *)
Theorem output_log_match_spec (s : string) :
  output_log_match s = true <->
  exists p c e,
    s = p +:+ "-output" +:+ String c ("log" +:+ e) /\
    single_line p = true /\ is_newline c = false /\ (e = "" \/ e = newline).
Proof.
  induction s as [|a s IH].
  - simpl. split; [discriminate|]. intros (p & c & e & H & _).
    destruct p; discriminate H.
  - change (output_log_match (String a s))
      with (output_log_tail (String a s)
            || (negb (is_newline a) && output_log_match s)).
    rewrite orb_true_iff, andb_true_iff, output_log_tail_spec, IH,
      negb_true_iff.
    split.
    + intros [(c & e & H & Hc & He)|[Ha (p & c & e & H & Hp & Hc & He)]].
      * exists "", c, e. auto.
      * exists (String a p), c, e. rewrite H. repeat split; auto.
        simpl. now rewrite Ha, Hp.
    + intros (p & c & e & H & Hp & Hc & He). destruct p as [|x p].
      * left. exists c, e. auto.
      * right.
        change (String a s
                = String x (p +:+ "-output" +:+ String c ("log" +:+ e))) in H.
        injection H as -> ->. simpl in Hp.
        apply andb_true_iff in Hp as [Hx Hp]. apply negb_true_iff in Hx.
        split; [exact Hx|]. exists p, c, e. auto.
Qed.

(** ** [get_output_log_path] *)

Lemma str_app_cons (x : ascii) (a b : string) :
  String x a +:+ b = String x (a +:+ b).
Proof. reflexivity. Qed.

Lemma os_path_join_nonempty (a b : string) : b <> "" -> os_path_join a b <> "".
Proof.
  intros Hb. unfold os_path_join.
  destruct (str_prefix "/" b); [exact Hb|].
  destruct (negb (truthy_str a) || ends_with_slash a).
  - destruct a as [|x a]; [exact Hb | rewrite str_app_cons; discriminate].
  - destruct a as [|x a]; [|rewrite str_app_cons; discriminate].
    change ("" +:+ "/" +:+ b) with (String "/" b). discriminate.
Qed.

Lemma output_log_match_nonempty (f : string) :
  output_log_match f = true -> f <> "".
Proof. intros H ->. discriminate H. Qed.

Lemma scan_files_run (files : list string) (t : AbstractTool) (w : World) :
  scan_files files (t, w) =
  ((match List.find (accepts (name t)) files with
    | Some f => set_log_output_path (os_path_join (dir_logs t) f) t
    | None => t
    end, w), Ok tt).
Proof.
  induction files as [|f files IH]; [reflexivity|].
  simpl. unfold mbind, M_bind, self. simpl. unfold accepts at 1.
  destruct (output_log_match f && contains (name t) f); [reflexivity|].
  exact IH.
Qed.

Lemma scan_walk_run (entries : list walk_entry) (t : AbstractTool) (w : World) :
  scan_walk entries (t, w) =
  ((match walk_choice (name t) entries with
    | Some f => set_log_output_path (os_path_join (dir_logs t) f) t
    | None => t
    end, w), Ok tt).
Proof.
  revert t. induction entries as [|[[root dirs] files] rest IH]; intros t;
    [reflexivity|].
  simpl. unfold mbind, M_bind. rewrite scan_files_run.
  destruct (List.find (accepts (name t)) files) as [f|]; rewrite IH; simpl;
    destruct (walk_choice (name t) rest); reflexivity.
Qed.

Lemma get_output_log_path_run (os_walk : string -> list walk_entry)
  (t : AbstractTool) (w : World) :
  get_output_log_path os_walk (t, w) =
  if truthy_str (log_output_path t) then ((t, w), Ok (log_output_path t))
  else match walk_choice (name t) (os_walk (dir_logs t)) with
       | Some f =>
           ((set_log_output_path (os_path_join (dir_logs t) f) t, w),
            Ok (os_path_join (dir_logs t) f))
       | None => ((t, w), Ok (log_output_path t))
       end.
Proof.
  unfold get_output_log_path, mbind, M_bind, self. simpl.
  destruct (truthy_str (log_output_path t)); simpl; [reflexivity|].
  rewrite scan_walk_run.
  destruct (walk_choice (name t) (os_walk (dir_logs t))); reflexivity.
Qed.

Lemma walk_choice_accepted (n : string) (entries : list walk_entry) (f : string) :
  walk_choice n entries = Some f ->
  accepts n f = true /\
  exists root dirs files, In (root, dirs, files) entries /\ In f files.
Proof.
  induction entries as [|[[root dirs] files] rest IH]; [discriminate|].
  simpl. destruct (walk_choice n rest) as [g|].
  - intros H. injection H as ->. destruct (IH eq_refl) as (Ha & r & d & fs & Hin & Hf).
    split; [exact Ha|]. exists r, d, fs. auto.
  - intros H. apply List.find_some in H as [Hin Ha].
    split; [exact Ha|]. exists root, dirs, files. auto.
Qed.

Lemma walk_choice_none (n : string) (entries : list walk_entry) :
  walk_choice n entries = None <->
  forall root dirs files f,
    In (root, dirs, files) entries -> In f files -> accepts n f = false.
Proof.
  induction entries as [|[[root dirs] files] rest IH]; simpl.
  - split; [intros _ ? ? ? ? []|reflexivity].
  - destruct (walk_choice n rest) as [g|] eqn:Hg.
    + split; [discriminate|]. intros H.
      destruct (walk_choice_accepted n rest g Hg) as (Ha & r & d & fs & Hin & Hf).
      rewrite (H r d fs g (or_intror Hin) Hf) in Ha. discriminate.
    + destruct IH as [IH1 _]. split.
      * intros Hfind r d fs f [E|Hin] Hf.
        -- injection E as <- <- <-.
           destruct (accepts n f) eqn:Ha; [|reflexivity].
           pose proof (List.find_none _ _ Hfind f Hf) as Hno. congruence.
        -- exact (IH1 eq_refl r d fs f Hin Hf).
      * intros H. destruct (List.find (accepts n) files) as [f|] eqn:Hfind;
          [|reflexivity].
        apply List.find_some in Hfind as [Hin Ha].
        rewrite (H root dirs files f (or_introl eq_refl) Hin) in Ha.
        discriminate.
Qed.

(** X13. [get_output_log_path] returns the log path the engine holds
    after the call and leaves the world alone. A path that is already set
    is returned as it is, without looking at the directory, and a
    non-empty result is kept: every later call returns it again, whatever
    the logs directory lists by then. *)
Theorem get_output_log_path_cached (os_walk os_walk' : string -> list walk_entry)
  (t : AbstractTool) (w : World) :
  let r := get_output_log_path os_walk (t, w) in
  snd (fst r) = w /\
  snd r = Ok (log_output_path (fst (fst r))) /\
  (log_output_path t <> "" -> r = ((t, w), Ok (log_output_path t))) /\
  (forall p, snd r = Ok p -> p <> "" ->
     get_output_log_path os_walk' (fst r) = r).
Proof.
  cbv zeta. rewrite (get_output_log_path_run os_walk t w).
  destruct (log_output_path t) as [|x p0] eqn:Hp; simpl.
  - destruct (walk_choice (name t) (os_walk (dir_logs t))) as [f|] eqn:Hf;
      simpl.
    + split; [reflexivity|]. split; [reflexivity|].
      split; [intros H; now destruct H|].
      intros p H Hne. injection H as <-.
      rewrite get_output_log_path_run. simpl.
      destruct (os_path_join (dir_logs t) f) eqn:Hj; [now destruct Hne|].
      reflexivity.
    + split; [reflexivity|]. split; [now rewrite ?Hp|].
      split; [intros H; now destruct H|].
      intros p H Hne. injection H as <-. now destruct Hne.
  - split; [reflexivity|]. split; [now rewrite ?Hp|]. split; [reflexivity|].
    intros p H Hne. rewrite get_output_log_path_run, Hp. reflexivity.
Qed.

Lemma get_output_log_path_cached_witness :
  get_output_log_path (fun _ => [])
    (fst (get_output_log_path demo_walk (foo_lower, world0 true)))
  = get_output_log_path demo_walk (foo_lower, world0 true).
Proof.
  destruct (get_output_log_path_cached demo_walk (fun _ => []) foo_lower
              (world0 true)) as (_ & _ & _ & Hkeep).
  apply (Hkeep "/logs/c0-foo-3-output.log"); [reflexivity | discriminate].
Defined.

(** X14. When no log path is set, the path [get_output_log_path] finds
    is never invented: a non-empty result is the logs directory of the
    engine joined with a file name that some directory under it lists, that
    matches the pattern and that contains the name of the tool as it is
    written. The empty result means that no listed file passes the two
    tests, and then the engine is unchanged. *)
Theorem get_output_log_path_finds (os_walk : string -> list walk_entry)
  (t : AbstractTool) (w : World) :
  log_output_path t = "" ->
  (forall p, snd (get_output_log_path os_walk (t, w)) = Ok p -> p <> "" ->
     exists root dirs files f,
       In (root, dirs, files) (os_walk (dir_logs t)) /\ In f files /\
       output_log_match f = true /\ contains (name t) f = true /\
       p = os_path_join (dir_logs t) f) /\
  (snd (get_output_log_path os_walk (t, w)) = Ok "" <->
   forall root dirs files f,
     In (root, dirs, files) (os_walk (dir_logs t)) -> In f files ->
     output_log_match f && contains (name t) f = false) /\
  (snd (get_output_log_path os_walk (t, w)) = Ok "" ->
   fst (get_output_log_path os_walk (t, w)) = (t, w)).
Proof.
  intros Hp. rewrite (get_output_log_path_run os_walk t w), Hp. simpl.
  destruct (walk_choice (name t) (os_walk (dir_logs t))) as [f|] eqn:Hf; simpl.
  - destruct (walk_choice_accepted _ _ _ Hf) as (Ha & root & dirs & files & Hin & Hinf).
    pose proof Ha as Ha'. unfold accepts in Ha'.
    apply andb_true_iff in Ha' as [Hm Hc].
    assert (Hne : os_path_join (dir_logs t) f <> "")
      by (apply os_path_join_nonempty; now apply output_log_match_nonempty).
    split; [|split].
    + intros p H _. injection H as <-. exists root, dirs, files, f. auto 10.
    + split.
      * intros H. injection H as H. now destruct Hne.
      * intros H. specialize (H root dirs files f Hin Hinf).
        unfold accepts in Ha. congruence.
    + intros H. injection H as H. now destruct Hne.
  - split; [|split].
    + intros p H Hne. rewrite ?Hp in H. injection H as <-. now destruct Hne.
    + rewrite ?Hp. split; [|reflexivity]. intros _.
      apply (proj1 (walk_choice_none _ _) Hf).
    + reflexivity.
Qed.

Lemma get_output_log_path_finds_witness :
  exists root dirs files f,
    In (root, dirs, files) (demo_walk "/logs") /\ In f files /\
    output_log_match f = true /\ contains "foo" f = true /\
    "/logs/c0-foo-3-output.log" = os_path_join "/logs" f.
Proof.
  destruct (get_output_log_path_finds demo_walk foo_lower (world0 true))
    as (Hfound & _); [reflexivity|].
  apply (Hfound "/logs/c0-foo-3-output.log"); [reflexivity | discriminate].
Defined.

Lemma walk_choice_last (n : string) (before after : list walk_entry)
  (root : string) (dirs files : list string) (f : string) :
  walk_choice n after = None ->
  List.find (accepts n) files = Some f ->
  walk_choice n (before ++ (root, dirs, files) :: after) = Some f.
Proof.
  intros Ha Hf. induction before as [|[[r d] fs] before IH]; simpl.
  - now rewrite Ha.
  - now rewrite IH.
Qed.

(** X15. Of several directories with an accepted file it is the last one
    listed that decides, and within it the first accepted file: ending
    the inner loop does not end the walk. The result is joined with the
    logs directory of the engine, not with the directory that lists the
    file. *)
Theorem get_output_log_path_last_directory
  (os_walk : string -> list walk_entry) (t : AbstractTool) (w : World)
  (before after : list walk_entry) (root : string) (dirs files : list string)
  (f : string) :
  log_output_path t = "" ->
  os_walk (dir_logs t) = before ++ (root, dirs, files) :: after ->
  (forall r d fs g, In (r, d, fs) after -> In g fs ->
     output_log_match g && contains (name t) g = false) ->
  List.find (fun g => output_log_match g && contains (name t) g) files
    = Some f ->
  get_output_log_path os_walk (t, w)
  = ((set_log_output_path (os_path_join (dir_logs t) f) t, w),
     Ok (os_path_join (dir_logs t) f)).
Proof.
  intros Hp Hw Hafter Hfind.
  rewrite get_output_log_path_run, Hp, Hw. simpl.
  rewrite (walk_choice_last (name t) before after root dirs files f);
    [reflexivity | | exact Hfind].
  apply walk_choice_none. exact Hafter.
Qed.

Lemma get_output_log_path_last_directory_witness :
  get_output_log_path demo_walk (foo_lower, world0 true)
  = ((set_log_output_path "/logs/c0-foo-3-output.log" foo_lower, world0 true),
     Ok "/logs/c0-foo-3-output.log").
Proof.
  apply (get_output_log_path_last_directory demo_walk foo_lower (world0 true)
           [("/logs", ["old"],
             ["notes.txt"; "c1-foo-7-output.log"; "c2-foo-7-output.log"])]
           [] "/logs/old" [] ["c0-foo-3-output.log"] "c0-foo-3-output.log");
    [reflexivity | reflexivity | intros r d fs g [] | reflexivity].
Defined.

(** ** [run_analysis] *)

Lemma run_command_ok (rt : Runtime) (c l : string) (dp : option string)
  (env : env_dict) (s : State) :
  exists code, snd (run_command rt c l dp env s) = Ok code.
Proof.
  destruct s as [t w]. destruct (container_mode t) as [cid|] eqn:Hm.
  - rewrite (run_command_container rt t w cid c l dp env Hm). eexists.
    reflexivity.
  - rewrite (run_command_local rt t w c l dp env Hm). eexists. reflexivity.
Qed.

Lemma run_analysis_after_checks (rt : Runtime) (check_space : M unit)
  (K1 K2 : string) (bi ci : gmap string string) (t t1 t2 : AbstractTool)
  (w w1 w2 : World) (conf bug : string) :
  check_space (t, log_event (EvEmit Normal analysing_text) w) = ((t1, w1), Ok tt) ->
  pre_process rt (t1, w1) = ((t2, w2), Ok tt) ->
  ci !! K1 = Some conf -> bi !! K2 = Some bug ->
  AbstractAnalyzeTool.run_analysis rt check_space K1 K2 bi ci (t, w) =
  (fst (run_command rt ("mkdir " +:+ dir_output t2) "dev/null" (Some "/") ∅
          (set_log_output_path
             (os_path_join (dir_logs t2)
                (AbstractAnalyzeTool.output_log_name conf (name t2) bug)) t2,
           log_event (EvEmit Normal (running_text t2)) w2)), Ok tt).
Proof.
  intros Hcs Hpre Hc Hb.
  unfold AbstractAnalyzeTool.run_analysis, mbind, M_bind, emitter.normal,
    set_world, set_self, self, getitem. simpl.
  fold analysing_text. rewrite Hcs, Hpre. simpl. rewrite Hc, Hb. simpl.
  fold (running_text t2).
  destruct (run_command_ok rt ("mkdir " +:+ dir_output t2) "dev/null"
              (Some "/") ∅
              (set_log_output_path
                 (os_path_join (dir_logs t2)
                    (AbstractAnalyzeTool.output_log_name conf (name t2) bug)) t2,
               log_event (EvEmit Normal (running_text t2)) w2))
    as [code Hcode].
  destruct (run_command _ _ _ _ _ _) as [s r]. simpl in Hcode. subst r.
  reflexivity.
Qed.

(** X16. When the space check and the provisioning check pass and the
    two identifiers are there, [run_analysis] names the output log
    "<conf>-<lower-cased tool>-<bug>-output.log" under the logs directory
    and makes the output directory with [mkdir], run in "/", with the log
    path "dev/null". That path has no leading slash, so it is no discard
    path: on the host the output of [mkdir] is redirected into a file
    "dev/null" relative to "/", and in a container whatever [mkdir] prints
    is appended to the file "dev/null" of the container. *)
Theorem run_analysis_names_log_and_makes_output (rt : Runtime)
  (check_space : M unit) (K1 K2 : string) (bi ci : gmap string string)
  (t t1 t2 : AbstractTool) (w w1 w2 : World) (conf bug : string) :
  check_space (t, log_event (EvEmit Normal analysing_text) w) = ((t1, w1), Ok tt) ->
  pre_process rt (t1, w1) = ((t2, w2), Ok tt) ->
  ci !! K1 = Some conf -> bi !! K2 = Some bug ->
  let w3 := log_event (EvEmit Normal (running_text t2)) w2 in
  let mk := "mkdir " +:+ dir_output t2 in
  exists w',
    AbstractAnalyzeTool.run_analysis rt check_space K1 K2 bi ci (t, w)
    = ((set_log_output_path
          (os_path_join (dir_logs t2)
             (conf +:+ "-" +:+ lower (name t2) +:+ "-" +:+ bug +:+ "-output.log"))
          t2, w'), Ok tt) /\
    (container_id t2 = None ->
       trace w' = trace w3 ++
         [EvExecute (mk +:+ " >> dev/null 2>&1") ∅ (Some "/")]) /\
    (forall cid so se, container_id t2 = Some cid -> cid <> "" ->
       snd (on_exec_command rt (trace w3) cid mk "/" ∅) = Some (so, se) ->
       file_content w' (Some cid) "dev/null"
       = file_content (after_exec rt cid mk "/" ∅ w3) (Some cid) "dev/null"
         +:+ decode_iso_8859_1 so +:+ decode_iso_8859_1 se).
Proof.
  intros Hcs Hpre Hc Hb. cbv zeta.
  rewrite (run_analysis_after_checks rt check_space K1 K2 bi ci t t1 t2 w w1 w2
             conf bug Hcs Hpre Hc Hb).
  set (t3 := set_log_output_path _ t2).
  destruct (container_mode t3) as [cid|] eqn:Hm.
  - rewrite (run_command_container rt t3 _ cid _ "dev/null" (Some "/") ∅ Hm).
    cbv zeta. eexists. split; [reflexivity|]. split.
    + intros Hn. change (container_mode t3) with (container_mode t2) in Hm.
      rewrite (container_mode_none t2 Hn) in Hm. discriminate.
    + intros c so se Hcid Hne Hout.
      change (container_mode t3) with (container_mode t2) in Hm.
      rewrite (container_mode_some t2 c Hcid Hne) in Hm. injection Hm as <-.
      change (container_dir (Some "/")) with "/".
      match goal with
      | |- context [match ?x with Some _ => _ | None => _ end] =>
          replace x with (Some (so, se)) by (symmetry; exact Hout)
      end.
      change (contains "/dev/null" "dev/null") with false. cbv beta iota.
      change (container_id t3) with (container_id t2). rewrite Hcid.
      now rewrite !file_content_append_stream, str_app_assoc.
  - rewrite (run_command_local rt t3 _ _ "dev/null" (Some "/") ∅ Hm).
    eexists. split; [reflexivity|]. split.
    + intros _. reflexivity.
    + intros c so se Hcid Hne _.
      change (container_mode t3) with (container_mode t2) in Hm.
      rewrite (container_mode_some t2 c Hcid Hne) in Hm. discriminate.
Qed.

Lemma run_analysis_names_log_and_makes_output_witness :
  exists w',
    AbstractAnalyzeTool.run_analysis mkdir_runtime (mret tt) "id" "bug_id"
      (<["bug_id" := "7"]> ∅) (<["id" := "c1"]> ∅) (foo_analysis, world0 true)
    = ((set_log_output_path "/logs/c1-foo-7-output.log" foo_analysis, w'),
       Ok tt) /\
    file_content w' (Some "c0ffee") "dev/null" = "mkdir: File exists".
Proof.
  destruct (run_analysis_names_log_and_makes_output mkdir_runtime (mret tt)
              "id" "bug_id" (<["bug_id" := "7"]> ∅) (<["id" := "c1"]> ∅)
              foo_analysis foo_analysis foo_analysis (world0 true)
              (log_event (EvEmit Normal analysing_text) (world0 true))
              (snd (fst (pre_process mkdir_runtime
                           (foo_analysis,
                            log_event (EvEmit Normal analysing_text)
                                      (world0 true)))))
              "c1" "7")
    as (w' & Hrun & _ & Hcont); try reflexivity.
  exists w'. split; [exact Hrun|].
  rewrite (Hcont "c0ffee" [] (encode_iso_8859_1 "mkdir: File exists"));
    [reflexivity | reflexivity | discriminate | reflexivity].
Defined.

(** X17. A failure stops [run_analysis] where it happens: when the
    provisioning check raises, the same error leaves [run_analysis] in the
    state the check left; when the configuration or the bug has no
    identifier under its key, [KeyError] for that key is raised after the
    provisioning check has run. In each case the output log path of the
    engine is not assigned and [mkdir] is not run. *)
Theorem run_analysis_stops_on_failure (rt : Runtime) (check_space : M unit)
  (K1 K2 : string) (bi ci : gmap string string) (t t1 : AbstractTool)
  (w w1 : World) :
  check_space (t, log_event (EvEmit Normal analysing_text) w) = ((t1, w1), Ok tt) ->
  (forall s2 e, pre_process rt (t1, w1) = (s2, Raise e) ->
     AbstractAnalyzeTool.run_analysis rt check_space K1 K2 bi ci (t, w)
     = (s2, Raise e)) /\
  (forall t2 w2, pre_process rt (t1, w1) = ((t2, w2), Ok tt) ->
     ci !! K1 = None ->
     AbstractAnalyzeTool.run_analysis rt check_space K1 K2 bi ci (t, w)
     = ((t2, log_event (EvEmit Normal (running_text t2)) w2),
        Raise (KeyError K1))) /\
  (forall t2 w2 conf, pre_process rt (t1, w1) = ((t2, w2), Ok tt) ->
     ci !! K1 = Some conf -> bi !! K2 = None ->
     AbstractAnalyzeTool.run_analysis rt check_space K1 K2 bi ci (t, w)
     = ((t2, log_event (EvEmit Normal (running_text t2)) w2),
        Raise (KeyError K2))).
Proof.
  intros Hcs.
  unfold AbstractAnalyzeTool.run_analysis, mbind, M_bind, emitter.normal,
    set_world, set_self, self, getitem, raise. simpl.
  fold analysing_text. rewrite Hcs.
  split; [|split].
  - intros s2 e Hpre. rewrite Hpre. reflexivity.
  - intros t2 w2 Hpre Hc. rewrite Hpre. simpl. rewrite Hc. reflexivity.
  - intros t2 w2 conf Hpre Hc Hb. rewrite Hpre. simpl. rewrite Hc, Hb.
    reflexivity.
Qed.

Lemma run_analysis_stops_on_failure_witness :
  AbstractAnalyzeTool.run_analysis quiet_runtime (mret tt) "id" "bug_id"
    (<["bug_id" := "7"]> ∅) (<["id" := "c1"]> ∅) (foo_local, world0 false)
  = ((foo_local,
      {| values := values (world0 false);
         trace := [EvEmit Normal analysing_text; EvWhich "foo"];
         files := ∅; heap := [ToolStats_new] |}),
     Raise (ErrorExit "Foo not Found")).
Proof.
  destruct (run_analysis_stops_on_failure quiet_runtime (mret tt) "id" "bug_id"
              (<["bug_id" := "7"]> ∅) (<["id" := "c1"]> ∅)
              foo_local foo_local (world0 false)
              (log_event (EvEmit Normal analysing_text) (world0 false)))
    as (Hpre & _); [reflexivity|].
  apply Hpre. reflexivity.
Defined.

(** ** The log that [run_analysis] names and [get_output_log_path] finds *)

Lemma single_line_app (a b : string) :
  single_line (a +:+ b) = single_line a && single_line b.
Proof.
  induction a as [|x a IH]; [reflexivity|].
  rewrite str_app_cons. simpl. rewrite IH. now rewrite andb_assoc.
Qed.

Lemma lower_ascii_newline (a : ascii) :
  is_newline (lower_ascii a) = is_newline a.
Proof. destruct a as [[] [] [] [] [] [] [] []]; reflexivity. Qed.

Lemma single_line_lower (s : string) : single_line (lower s) = single_line s.
Proof.
  induction s as [|a s IH]; [reflexivity|].
  simpl. now rewrite lower_ascii_newline, IH.
Qed.

Lemma output_log_name_matches (conf n bug : string) :
  single_line conf = true -> single_line n = true -> single_line bug = true ->
  output_log_match (AbstractAnalyzeTool.output_log_name conf n bug) = true.
Proof.
  intros Hc Hn Hb.
  replace (AbstractAnalyzeTool.output_log_name conf n bug)
    with ((conf +:+ "-" +:+ lower n +:+ "-" +:+ bug)
          +:+ "-output" +:+ String "." ("log" +:+ ""))
    by (unfold AbstractAnalyzeTool.output_log_name;
        now rewrite !str_app_assoc).
  apply output_log_match_intro; [|reflexivity | now left].
  rewrite !single_line_app, single_line_lower, Hc, Hn, Hb. reflexivity.
Qed.

(** X18. The name [run_analysis] gives the output log matches the
    pattern of [get_output_log_path] whenever the configuration
    identifier, the tool name and the bug identifier have no newline, and
    it contains the lower-cased tool name. For a tool whose name is already
    in lower case, [get_output_log_path] therefore finds that log in a
    logs directory that lists it alone, and returns the path [run_analysis]
    assigns. *)
Theorem output_log_found_again (os_walk : string -> list walk_entry)
  (t : AbstractTool) (w : World) (conf bug : string) :
  single_line conf = true -> single_line (name t) = true ->
  single_line bug = true ->
  let file := AbstractAnalyzeTool.output_log_name conf (name t) bug in
  output_log_match file = true /\
  contains (lower (name t)) file = true /\
  (lower (name t) = name t -> log_output_path t = "" ->
   os_walk (dir_logs t) = [(dir_logs t, [], [file])] ->
   get_output_log_path os_walk (t, w)
   = ((set_log_output_path (os_path_join (dir_logs t) file) t, w),
      Ok (os_path_join (dir_logs t) file))).
Proof.
  intros Hc Hn Hb. cbv zeta.
  pose proof (output_log_name_matches conf (name t) bug Hc Hn Hb) as Hm.
  assert (Hin : contains (lower (name t))
                  (AbstractAnalyzeTool.output_log_name conf (name t) bug) = true).
  { apply contains_spec. exists (conf +:+ "-"), ("-" +:+ bug +:+ "-output.log").
    unfold AbstractAnalyzeTool.output_log_name. now rewrite !str_app_assoc. }
  split; [exact Hm|]. split; [exact Hin|].
  intros Hlow Hp Hw. rewrite get_output_log_path_run, Hp, Hw. simpl.
  unfold accepts. rewrite Hm. rewrite Hlow in Hin. rewrite Hin. reflexivity.
Qed.

Lemma output_log_found_again_witness :
  get_output_log_path (fun d => [(d, [], ["c1-foo-7-output.log"])])
    (foo_lower, world0 true)
  = ((set_log_output_path "/logs/c1-foo-7-output.log" foo_lower, world0 true),
     Ok "/logs/c1-foo-7-output.log").
Proof.
  destruct (output_log_found_again
              (fun d => [(d, [], ["c1-foo-7-output.log"])])
              foo_lower (world0 true) "c1" "7") as (_ & _ & Hfind);
    [reflexivity | reflexivity | reflexivity |].
  apply Hfind; reflexivity.
Defined.

(** A tool whose name has a capital is not found by its own log name. *)
Example output_log_of_capitalised_tool :
  accepts "Foo" (AbstractAnalyzeTool.output_log_name "c1" "Foo" "7") = false.
Proof. reflexivity. Qed.

(** ** Time stamps around a command *)

Lemma timestamp_append (cid : option string) (content l : string) (w : World) :
  file_content (log_event (EvAppendFile cid content l)
                  (write_append cid content l w)) cid l
  = file_content w cid l +:+ content.
Proof. unfold file_content at 1. simpl. now rewrite lookup_insert_eq. Qed.

(** X19. A command run in a container between [timestamp_log_start] and
    [timestamp_log_end], with the output log of the engine as its log
    path, leaves in that log, after what was there: the start time and a
    newline, the decoded standard output, the decoded standard error, a
    newline and the end time; provided the log path is no discard path and
    the command itself does not write to the log. *)
Theorem stamped_run_transcript (rt : Runtime) (clock1 clock2 : string -> string)
  (t : AbstractTool) (w : World) (cid c : string) (dp : option string)
  (env : env_dict) (so se : list byte) :
  container_id t = Some cid -> cid <> "" ->
  contains "/dev/null" (log_output_path t) = false ->
  let l := log_output_path t in
  let w1 := snd (fst (timestamp_log_start clock1 (t, w))) in
  snd (on_exec_command rt (trace w1) cid c (container_dir dp) env)
    = Some (so, se) ->
  exec_command_files rt (trace w1) cid c (container_dir dp) env (files w1)
    !! (Some cid, l) = files w1 !! (Some cid, l) ->
  exists w',
    stamped_run rt clock1 clock2 c l dp env (t, w) = ((t, w'), Ok tt) /\
    file_content w' (Some cid) l
    = file_content w (Some cid) l +:+ clock1 timestamp_fmt +:+ newline
      +:+ decode_iso_8859_1 so +:+ decode_iso_8859_1 se
      +:+ newline +:+ clock2 timestamp_fmt.
Proof.
  intros Hc Hne Hl. cbv zeta.
  unfold stamped_run, timestamp_log_start, timestamp_log_end, append_file,
    abstractions.append_file, mbind, M_bind, self, set_world. simpl.
  rewrite Hc. intros Hout Hkeep.
  rewrite (run_command_container rt t _ cid c (log_output_path t) dp env
             (container_mode_some t cid Hc Hne)).
  cbv zeta.
  match goal with
  | |- context [match ?x with Some _ => _ | None => _ end] =>
      replace x with (Some (so, se)) by (symmetry; exact Hout)
  end.
  rewrite Hl, Hc. eexists. split; [reflexivity|].
  cbn [fst snd]. rewrite Hc.
  rewrite timestamp_append, !file_content_append_stream.
  unfold file_content at 1. unfold after_exec. simpl.
  unfold file_content in Hkeep |- *. simpl in Hkeep. rewrite Hkeep.
  rewrite lookup_insert_eq. simpl.
  now rewrite !str_app_assoc.
Qed.

Lemma stamped_run_transcript_witness :
  exists w',
    stamped_run killed_runtime noon noon "tool --run" "/logs/out.log" None ∅
      (set_log_output_path "/logs/out.log" foo_container, world0 true)
    = ((set_log_output_path "/logs/out.log" foo_container, w'), Ok tt) /\
    file_content w' (Some "c0ffee") "/logs/out.log"
    = noon "" +:+ newline +:+ "partialKilled" +:+ newline +:+ noon "".
Proof.
  destruct (stamped_run_transcript killed_runtime noon noon
              (set_log_output_path "/logs/out.log" foo_container) (world0 true)
              "c0ffee" "tool --run" None ∅
              (encode_iso_8859_1 "partial") (encode_iso_8859_1 "Killed"))
    as (w' & Hrun & Hfile); try reflexivity; [discriminate|].
  exists w'. split; [exact Hrun | exact Hfile].
Defined.

(** ** [update_info] that fails *)

(** X20. When the descriptor has no entry for the mode that the new
    container identifier selects, [update_info] raises [KeyError] for that
    mode, and the engine is left half updated: it has already taken the
    new container identifier and the new instrumentation flag, while its
    directories and its statistics record are still the old ones, and the
    world is untouched. *)
Theorem update_info_fails_half_way (cid : option string) (io : bool)
  (di : gmap string dir_dict) (t : AbstractTool) (w : World) :
  di !! mode_key_of cid = None ->
  exists t',
    update_info cid io di (t, w) = ((t', w), Raise (KeyError (mode_key_of cid))) /\
    container_id t' = cid /\ is_instrument_only t' = io /\
    dir_expr t' = dir_expr t /\ dir_logs t' = dir_logs t /\
    dir_inst t' = dir_inst t /\ dir_setup t' = dir_setup t /\
    dir_output t' = dir_output t /\ dir_base_expr t' = dir_base_expr t /\
    _stats t' = _stats t.
Proof.
  intros Hd. exists (set_is_instrument_only io (set_container_id cid t)).
  split; [|repeat split].
  apply update_info_raise.
  unfold update_dir_info, mbind, M_bind, self, getitem2, getitem, raise.
  simpl. unfold mode_key_of in *.
  destruct (truthy_opt_str cid); simpl; rewrite Hd; reflexivity.
Qed.

Lemma update_info_fails_half_way_witness :
  exists t',
    update_info (Some "c0ffee") true local_only_dir_info (foo_local, world0 true)
    = ((t', world0 true), Raise (KeyError "container")) /\
    container_id t' = Some "c0ffee" /\ is_instrument_only t' = true /\
    _stats t' = _stats foo_local.
Proof.
  destruct (update_info_fails_half_way (Some "c0ffee") true local_only_dir_info
              foo_local (world0 true))
    as (t' & Hrun & Hc & Hi & _ & _ & _ & _ & _ & _ & Hs); [reflexivity|].
  exists t'. auto.
Defined.
